(** * OVMS telemetry plugins: change gate, route session and auto trigger

    A shallow embedding of the JavaScript plugins

    - [plugin/abrp/sendlivedata2abrp.js]  (module [Abrp]),
    - [abrp2.js], the earlier variant of the same plugin, for its
      [startRoute] and [endRoute]           (module [Abrp2]),
    - [plugin/slack/slack.js], for its auto trigger (module [Slack]),

    together with the host objects they call ([PubSub], [OvmsNotify],
    [OvmsConfig], [OvmsMetrics], [HTTP], [print]).

    The scripts keep their state in module-level [var]s and call the host
    for every effect, so the embedding is a state-and-exception monad over
    a record that holds the module variables, the [PubSub] registry and the
    trace of output calls made so far.  A thrown exception keeps the state
    changes made before it, as in JavaScript.

    What the host does is fixed as follows.

    - Reading the metrics may throw, and [HTTP.Request] may throw when it
      is called; which of them does, and with which error, is given by the
      [Env] a handler runs in.  The other host calls ([print],
      [OvmsNotify.Raise], [OvmsConfig.GetValues], [PubSub.subscribe],
      [PubSub.unsubscribe]) return normally, and so do [JSON.stringify]
      and [encodeURIComponent] on the records and errors of the scripts.
      What [startRoute] and [endRoute] do when a registry call throws is
      the subject of module [AbrpOn].
    - [PubSub.subscribe] returns a new token on every call, also for a
      function already subscribed; [PubSub.unsubscribe] removes the
      subscription of the token.
    - A request ends later, outside the handler that made it, by a call of
      its [done] or of its [fail] function.
    - The conversions [Number], [Math.floor] and [toFixed] that
      [getTelemetry] applies belong to the reading: a [Reading] holds the
      converted values, any number or string. *)

From Stdlib Require Import ZArith QArith Qcanon String Ascii List Bool Lia DecimalString.
Import ListNotations.
Close Scope Qc_scope.
Close Scope Q_scope.
Open Scope string_scope.

(* ===================================================================== *)
(** ** JavaScript values stored in a telemetry record *)
(* ===================================================================== *)

Module JS.

(** A JavaScript number.  [Fin q] is a finite double of exact value [q]
    (the two zeros are one value, as [===] identifies them); [NaN] and the
    two infinities are the remaining doubles. *)
Inductive number : Type :=
| Fin (q : Qc)
| NaN
| PosInf
| NegInf.

(** The values the watched fields hold: numbers, and the strings that
    [toFixed] returns. *)
Inductive value : Type :=
| Num (n : number)
| Str (s : string).

(** [a === b] on numbers: [NaN] is equal to nothing, itself included. *)
Definition number_strict_eq (a b : number) : bool :=
  match a, b with
  | Fin p, Fin q => Qc_eq_bool p q
  | PosInf, PosInf => true
  | NegInf, NegInf => true
  | _, _ => false
  end.

(** [a === b]: operands of different types are never equal. *)
Definition strict_eq (a b : value) : bool :=
  match a, b with
  | Num x, Num y => number_strict_eq x y
  | Str s, Str t => String.eqb s t
  | _, _ => false
  end.

(** [a !== b]. *)
Definition strict_ne (a b : value) : bool := negb (strict_eq a b).

(** [a + b === 0] on numbers.  Double addition is exact whenever the
    exact sum is zero and never rounds a non-zero sum to zero, so on
    finite operands the test is the test on the exact sum; a sum with a
    [NaN] or an infinite operand is [NaN] or infinite, hence not [0]. *)
Definition sum_is_zero (a b : number) : bool :=
  match a, b with
  | Fin p, Fin q => Qc_eq_bool (p + q)%Qc (Q2Qc 0)
  | _, _ => false
  end.

(** The number a [cond ? 1 : 0] expression yields. *)
Definition of_bool (b : bool) : number :=
  if b then Fin (Q2Qc 1) else Fin (Q2Qc 0).

Definition of_Z (z : Z) : number := Fin (Q2Qc (inject_Z z)).

Definition is_NaN (v : value) : bool :=
  match v with
  | Num NaN => true
  | _ => false
  end.

End JS.

(* ===================================================================== *)
(** ** The telemetry record built by [getTelemetry] *)
(* ===================================================================== *)

Record Telemetry : Type := mkTelemetry {
  utc : Z;
  soc : JS.number;
  soh : JS.number;
  speed : JS.number;
  car_model : string;
  lat : string;
  lon : string;
  alt : string;
  ext_temp : JS.number;
  is_charging : bool;        (* the number 1 or 0 *)
  batt_temp : JS.number;
  voltage : JS.number;
  current : JS.number;
  power : string
}.

(** The property names listed in [telemetryChangedIndicators]. *)
Inductive Indicator : Type :=
| k_soc | k_soh | k_lat | k_lon | k_alt | k_is_charging | k_batt_temp | k_ext_temp.

(** [telemetry[indicator]]. *)
Definition field (t : Telemetry) (i : Indicator) : JS.value :=
  match i with
  | k_soc => JS.Num (soc t)
  | k_soh => JS.Num (soh t)
  | k_lat => JS.Str (lat t)
  | k_lon => JS.Str (lon t)
  | k_alt => JS.Str (alt t)
  | k_is_charging => JS.Num (JS.of_bool (is_charging t))
  | k_batt_temp => JS.Num (batt_temp t)
  | k_ext_temp => JS.Num (ext_temp t)
  end.

Definition telemetryChangedIndicators : list Indicator :=
  [k_soc; k_soh; k_lat; k_lon; k_alt; k_is_charging; k_batt_temp; k_ext_temp].

(** [nextTelemetry.soh + nextTelemetry.soc === 0] *)
Definition telemetryInvalid (nextTelemetry : Telemetry) : bool :=
  JS.sum_is_zero (soh nextTelemetry) (soc nextTelemetry).

(** [telemetryChangedIndicators.some(indicator =>
       previousTelemetry[indicator] !== nextTelemetry[indicator])] *)
Definition telemetryChanged (previousTelemetry nextTelemetry : Telemetry) : bool :=
  existsb
    (fun indicator =>
       JS.strict_ne (field previousTelemetry indicator) (field nextTelemetry indicator))
    telemetryChangedIndicators.

(* ===================================================================== *)
(** ** Configuration and request URLs *)
(* ===================================================================== *)

(** The frozen configuration object: [defaultConfiguration] overridden by
    the stored values. *)
Record Config : Type := mkConfig {
  url : string;
  cfg_car_model : string;
  user_token : string
}.

(** What [OvmsConfig.GetValues('usr', 'abrp.')] returns: each of the three
    keys is present or not. *)
Record ConfigValues : Type := mkConfigValues {
  stored_url : option string;
  stored_car_model : option string;
  stored_user_token : option string
}.

(** The URL built in [updateAbrp],
    [config.url + '?api_key=' + OVMS_API_KEY + '&token=' + config.user_token
     + '&tlm=' + encodeURIComponent(JSON.stringify(telemetry))],
    kept as its four parts. *)
Record Url : Type := mkUrl {
  base : string;
  api_key : string;
  token : string;
  tlm : Telemetry
}.

(* ===================================================================== *)
(** ** The host runtime *)
(* ===================================================================== *)

Module Host.

(** A thrown [Error]. *)
Record Exn : Type := mkError { message : string }.

(** How a call ends. *)
Inductive Outcome (A : Type) : Type :=
| Normal (a : A)
| Throw (e : Exn).
Arguments Normal {A} a.
Arguments Throw {A} e.

(** Computations over a state [W] that may throw; the state reached is
    returned in both cases. *)
Definition M (W A : Type) : Type := W -> Outcome A * W.

Definition ret {W A} (a : A) : M W A := fun w => (Normal a, w).

Definition bind {W A B} (c : M W A) (k : A -> M W B) : M W B :=
  fun w =>
    match c w with
    | (Normal a, w') => k a w'
    | (Throw e, w') => (Throw e, w')
    end.

Definition throw {W A} (e : Exn) : M W A := fun w => (Throw e, w).

(** [try { body } catch (error) { handler(error) }] *)
Definition try_catch {W A} (body : M W A) (handler : Exn -> M W A) : M W A :=
  fun w =>
    match body w with
    | (Normal a, w') => (Normal a, w')
    | (Throw e, w') => handler e w'
    end.

Definition gets {W A} (f : W -> A) : M W A := fun w => (Normal (f w), w).

Definition modify {W} (f : W -> W) : M W unit := fun w => (Normal tt, f w).

(** The state a computation leaves, and whether it returned. *)
Definition exec {W A} (c : M W A) (w : W) : W := snd (c w).

Definition returns {W A} (c : M W A) (w : W) : bool :=
  match fst (c w) with
  | Normal _ => true
  | Throw _ => false
  end.

(** The topics of the [topics] object. *)
Inductive Topic : Type := VehicleOn | VehicleOff | Ticker.

Definition topic_name (t : Topic) : string :=
  match t with
  | VehicleOn => "vehicle.on"
  | VehicleOff => "vehicle.off"
  | Ticker => "ticker.60"
  end.

Definition Topic_eqb (a b : Topic) : bool :=
  match a, b with
  | VehicleOn, VehicleOn | VehicleOff, VehicleOff | Ticker, Ticker => true
  | _, _ => false
  end.

Inductive Severity : Type := Info | Error.

(** One call to an output function of the host. *)
Inductive Event : Type :=
| Print (text : string)
    (* print(text) *)
| PrintError (context : string) (e : Exn)
    (* print(context + ' error [' + JSON.stringify(error) + ']\n') *)
| PrintConfig (c : Config)
    (* print('Config ' + JSON.stringify(configuration, null, 4) + '\n') *)
| PrintSending (u : Url)
    (* print('Sending to [' + url + ']\n') *)
| PrintTelemetry (t : Telemetry)
    (* print('Telemetry ' + JSON.stringify(telemetry, null, 4)) *)
| Raise (severity : Severity) (channel : string) (text : string)
    (* OvmsNotify.Raise(severity, channel, text) *)
| Request (u : Url).
    (* HTTP.Request({url, done, fail}) *)

Section Registry.

(** The functions a module hands to [PubSub.subscribe]. *)
Variable Callback : Type.

Record Subscription : Type := mkSubscription {
  sub_token : nat;
  sub_topic : Topic;
  sub_callback : Callback
}.

(** The registry of [PubSub]: the live subscriptions, oldest first, and
    the number the next token takes.  A token is the string
    ['uid_' + n], which is never falsy; it is kept as [n]. *)
Record PubSub : Type := mkPubSub {
  subscriptions : list Subscription;
  nextUid : nat
}.

Definition subscribe (t : Topic) (f : Callback) (r : PubSub) : nat * PubSub :=
  (nextUid r,
   {| subscriptions := subscriptions r ++ [mkSubscription (nextUid r) t f];
      nextUid := S (nextUid r) |}).

Definition unsubscribe (tok : nat) (r : PubSub) : PubSub :=
  {| subscriptions :=
       filter (fun s => negb (Nat.eqb (sub_token s) tok)) (subscriptions r);
     nextUid := nextUid r |}.

(** The live subscriptions to a topic. *)
Definition live (t : Topic) (r : PubSub) : list Subscription :=
  filter (fun s => Topic_eqb (sub_topic s) t) (subscriptions r).

(** The state of one loaded script: its module-level variables [V], the
    registry, and the output calls made so far, oldest first. *)
Record World (V : Type) : Type := mkWorld {
  vars : V;
  bus : PubSub;
  out : list Event
}.
Arguments mkWorld {V}.
Arguments vars {V}.
Arguments bus {V}.
Arguments out {V}.

Definition emit {V} (ev : Event) : M (World V) unit :=
  modify (fun w => mkWorld (vars w) (bus w) (out w ++ [ev])).

(** [print(text)] *)
Definition print {V} (text : string) : M (World V) unit := emit (Print text).

(** [OvmsNotify.Raise(severity, channel, text)] *)
Definition OvmsNotify_Raise {V} (severity : Severity) (channel text : string)
  : M (World V) unit :=
  emit (Raise severity channel text).

(** [PubSub.subscribe(topic, f)] *)
Definition PubSub_subscribe {V} (t : Topic) (f : Callback) : M (World V) nat :=
  fun w =>
    let (tok, r) := subscribe t f (bus w) in
    (Normal tok, mkWorld (vars w) r (out w)).

(** [PubSub.unsubscribe(token)] *)
Definition PubSub_unsubscribe {V} (tok : nat) : M (World V) unit :=
  modify (fun w => mkWorld (vars w) (unsubscribe tok (bus w)) (out w)).

Definition read {V A} (f : V -> A) : M (World V) A := gets (fun w => f (vars w)).

Definition assign {V} (f : V -> V) : M (World V) unit :=
  modify (fun w => mkWorld (f (vars w)) (bus w) (out w)).

End Registry.

Arguments mkSubscription {Callback}.
Arguments sub_token {Callback}.
Arguments sub_topic {Callback}.
Arguments sub_callback {Callback}.
Arguments mkPubSub {Callback}.
Arguments subscriptions {Callback}.
Arguments nextUid {Callback}.
Arguments subscribe {Callback}.
Arguments unsubscribe {Callback}.
Arguments live {Callback}.
Arguments mkWorld {Callback V}.
Arguments vars {Callback V}.
Arguments bus {Callback V}.
Arguments out {Callback V}.
Arguments emit {Callback V}.
Arguments print {Callback V}.
Arguments OvmsNotify_Raise {Callback V}.
Arguments PubSub_subscribe {Callback V}.
Arguments PubSub_unsubscribe {Callback V}.
Arguments read {Callback V A}.
Arguments assign {Callback V}.

(** The line feed that ends most printed lines. *)
Definition nl : string := String (ascii_of_nat 10) EmptyString.

Definition string_of_Z (z : Z) : string := NilZero.string_of_int (Z.to_int z).

End Host.

Declare Scope js_scope.
Delimit Scope js_scope with js.
Notation "x <- c ;; k" := (Host.bind c (fun x => k))
  (at level 61, c at next level, right associativity) : js_scope.
Notation "c ;; k" := (Host.bind c (fun _ => k))
  (at level 61, right associativity) : js_scope.
Open Scope js_scope.

(* ===================================================================== *)
(** ** plugin/abrp/sendlivedata2abrp.js *)
(* ===================================================================== *)

Module Abrp.
Import Host.

Definition defaultConfiguration : Config :=
  {| url := "http://api.iternio.com/1/tlm/send";
     cfg_car_model := "@@:@@:@@:@@:@@";
     user_token := "@@@@@@@@-@@@@-@@@@-@@@@-@@@@@@@@@@@@" |}.

Definition OVMS_API_KEY : string := "32b2162f-9599-4647-8139-66e9f9528370".

(** The three function expressions the script subscribes. *)
Inductive Callback : Type :=
| onVehicleOn     (* function () { OvmsNotify.Raise(...); startRoute(); } *)
| onVehicleOff    (* function () { OvmsNotify.Raise(...); endRoute(); } *)
| onTicker.       (* function () { sendTelemetry(false); } *)

(** The module-level [var]s; [None] is [null]. *)
Record Vars : Type := mkVars {
  vehicleOnSubscription : option nat;
  vehicleOffSubscription : option nat;
  tickerSubscription : option nat;
  currentTelemetry : option Telemetry;
  configuration : option Config
}.

Definition State : Type := World Callback Vars.

Definition set_vehicleOnSubscription (x : option nat) (v : Vars) : Vars :=
  mkVars x (vehicleOffSubscription v) (tickerSubscription v)
         (currentTelemetry v) (configuration v).
Definition set_vehicleOffSubscription (x : option nat) (v : Vars) : Vars :=
  mkVars (vehicleOnSubscription v) x (tickerSubscription v)
         (currentTelemetry v) (configuration v).
Definition set_tickerSubscription (x : option nat) (v : Vars) : Vars :=
  mkVars (vehicleOnSubscription v) (vehicleOffSubscription v) x
         (currentTelemetry v) (configuration v).
Definition set_currentTelemetry (x : option Telemetry) (v : Vars) : Vars :=
  mkVars (vehicleOnSubscription v) (vehicleOffSubscription v) (tickerSubscription v)
         x (configuration v).
Definition set_configuration (x : option Config) (v : Vars) : Vars :=
  mkVars (vehicleOnSubscription v) (vehicleOffSubscription v) (tickerSubscription v)
         (currentTelemetry v) x.

(** The metric values one call of [getTelemetry] reads, after the
    conversions [Number], [Math.floor] and [toFixed] applied to them. *)
Record Reading : Type := mkReading {
  v_c_state : string;
  v_b_soc : JS.number;
  v_b_soh : JS.number;
  v_p_speed : JS.number;
  v_p_latitude : string;
  v_p_longitude : string;
  v_p_altitude : string;
  v_e_temp : JS.number;
  v_b_temp : JS.number;
  v_b_voltage : JS.number;
  v_b_current : JS.number;
  v_b_power : string
}.

(** What the host answers while one handler runs: the stored
    configuration, the metrics (or the error their reading throws), the
    clock, and the error [HTTP.Request] throws synchronously, if any. *)
Record Env : Type := mkEnv {
  config_values : ConfigValues;
  metrics : Exn + Reading;
  clock : Z;
  request_error : option Exn
}.

(** One property of [Object.assign({}, defaults, values)]. *)
Definition assigned (default : string) (stored : option string) : string :=
  match stored with
  | Some s => s
  | None => default
  end.

Definition handleError (error : Exn) (context : string) : M State unit :=
  emit (PrintError context error) ;;
  OvmsNotify_Raise Error "usr.abrp.status" (context ++ " error  - " ++ message error).

Definition loadConfig (env : Env) : M State Config :=
  c <- read configuration ;;
  match c with
  | Some config => ret config
  | None =>
      let config :=
        {| url := assigned (url defaultConfiguration) (stored_url (config_values env));
           cfg_car_model :=
             assigned (cfg_car_model defaultConfiguration)
                      (stored_car_model (config_values env));
           user_token :=
             assigned (user_token defaultConfiguration)
                      (stored_user_token (config_values env)) |} in
      assign (set_configuration (Some config)) ;;
      emit (PrintConfig config) ;;
      ret config
  end.

Definition unloadConfig : M State unit := assign (set_configuration None).

(** [HTTP.Request({url, done, fail})]: the call is recorded, then it
    returns or throws; [done] or [fail] run later, see [requestDone] and
    [requestFail]. *)
Definition HTTP_Request (env : Env) (u : Url) : M State unit :=
  emit (Request u) ;;
  match request_error env with
  | Some e => throw e
  | None => ret tt
  end.

Definition updateAbrp (env : Env) (telemetry : Telemetry) : M State unit :=
  config <- loadConfig env ;;
  let u := mkUrl (url config) OVMS_API_KEY (user_token config) telemetry in
  emit (PrintSending u) ;;
  HTTP_Request env u.

(** The [done] callback of the request. *)
Definition requestDone (statusCode : Z) : M State unit :=
  if Z.eqb statusCode 200 then ret tt
  else handleError
         (mkError ("Unexpected status code [" ++ string_of_Z statusCode ++ "]"))
         "Http request".

(** The [fail] callback of the request. *)
Definition requestFail (error : Exn) : M State unit :=
  handleError error "HTTP request".

(** How a request ends, some time after [HTTP.Request] returned: the host
    calls [done] with the response, or [fail] with an error. *)
Inductive Completion : Type :=
| Done (statusCode : Z)
| Failed (error : Exn).

Definition complete (c : Completion) : M State unit :=
  match c with
  | Done statusCode => requestDone statusCode
  | Failed error => requestFail error
  end.

(** Reading the metrics throws when the host says so. *)
Definition OvmsMetrics_read (env : Env) : M State Reading :=
  match metrics env with
  | inl e => throw e
  | inr r => ret r
  end.

(** The object literal [getTelemetry] returns. *)
Definition telemetryOf (env : Env) (config : Config) (r : Reading) : Telemetry :=
  let isCharging :=
    String.eqb (v_c_state r) "charging" || String.eqb (v_c_state r) "topoff" in
  {| utc := clock env;
     soc := v_b_soc r;
     soh := v_b_soh r;
     speed := v_p_speed r;
     car_model := cfg_car_model config;
     lat := v_p_latitude r;
     lon := v_p_longitude r;
     alt := v_p_altitude r;
     ext_temp := v_e_temp r;
     is_charging := isCharging;
     batt_temp := v_b_temp r;
     voltage := v_b_voltage r;
     current := v_b_current r;
     power := v_b_power r |}.

Definition getTelemetry (env : Env) : M State Telemetry :=
  config <- loadConfig env ;;
  r <- OvmsMetrics_read env ;;
  ret (telemetryOf env config r).

Definition isTelemetryValidAndHasChanged (previousTelemetry nextTelemetry : Telemetry)
  : M State bool :=
  if telemetryInvalid nextTelemetry then
    print ("Telemetry invalid, canbus not readable: reset module and then put motors on"
             ++ nl) ;;
    ret false
  else
    let changed := telemetryChanged previousTelemetry nextTelemetry in
    print ("Telemetry changed [" ++ (if changed then "true" else "false") ++ "]" ++ nl) ;;
    ret changed.

(** The condition of the [if] in [sendTelemetry],
    [!currentTelemetry || forceAbrpUpdate || isTelemetryValidAndHasChanged(...)];
    [||] evaluates its right operand only when the left one is falsy. *)
Definition sendCondition (forceAbrpUpdate : bool) (telemetry : Telemetry)
  : M State bool :=
  cur <- read currentTelemetry ;;
  match cur with
  | None => ret true
  | Some previous =>
      if forceAbrpUpdate then ret true
      else isTelemetryValidAndHasChanged previous telemetry
  end.

Definition sendTelemetry_body (env : Env) (forceAbrpUpdate : bool) : M State unit :=
  telemetry <- getTelemetry env ;;
  go <- sendCondition forceAbrpUpdate telemetry ;;
  if go then
    assign (set_currentTelemetry (Some telemetry)) ;;
    updateAbrp env telemetry
  else ret tt.

Definition sendTelemetry (env : Env) (forceAbrpUpdate : bool) : M State unit :=
  try_catch (sendTelemetry_body env forceAbrpUpdate)
            (fun error => handleError error "Send telemetry").

Definition startRoute_body (env : Env) : M State unit :=
  unloadConfig ;;
  sendTelemetry env true ;;
  sub <- read tickerSubscription ;;
  match sub with
  | None =>
      tok <- PubSub_subscribe Ticker onTicker ;;
      assign (set_tickerSubscription (Some tok))
  | Some _ => ret tt
  end ;;
  print ("Starting route - subscribed to ticker" ++ nl) ;;
  OvmsNotify_Raise Info "usr.abrp.status" "ABRP route started".

Definition startRoute (env : Env) : M State unit :=
  try_catch (startRoute_body env) (fun error => handleError error "Start route").

Definition endRoute_body : M State unit :=
  unloadConfig ;;
  assign (set_currentTelemetry None) ;;
  sub <- read tickerSubscription ;;
  match sub with
  | Some tok =>
      PubSub_unsubscribe tok ;;
      assign (set_tickerSubscription None)
  | None => ret tt
  end ;;
  print ("Ending route - unsubscribed from ticker" ++ nl) ;;
  OvmsNotify_Raise Info "usr.abrp.status" "ABRP route ended".

Definition endRoute : M State unit :=
  try_catch endRoute_body (fun error => handleError error "End route").

(** [exports.onetime] *)
Definition onetime (env : Env) : M State unit := sendTelemetry env true.

(** [exports.send] *)
Definition send (env : Env) (start : bool) : M State unit :=
  if start then startRoute env else endRoute.

(** [exports.autoSend] *)
Definition autoSend (enable : bool) : M State unit :=
  if enable then
    on <- read vehicleOnSubscription ;;
    match on with
    | None =>
        tok <- PubSub_subscribe VehicleOn onVehicleOn ;;
        assign (set_vehicleOnSubscription (Some tok)) ;;
        print ("Vehicle on subscribed to" ++ nl)
    | Some _ => ret tt
    end ;;
    off <- read vehicleOffSubscription ;;
    match off with
    | None =>
        tok <- PubSub_subscribe VehicleOff onVehicleOff ;;
        assign (set_vehicleOffSubscription (Some tok)) ;;
        print ("Vehicle off subscribed to" ++ nl)
    | Some _ => ret tt
    end ;;
    print ("Vehicle on and off topics subscribed" ++ nl)
  else
    on <- read vehicleOnSubscription ;;
    match on with
    | Some tok =>
        PubSub_unsubscribe tok ;;
        assign (set_vehicleOnSubscription None)
    | None => ret tt
    end ;;
    off <- read vehicleOffSubscription ;;
    match off with
    | Some tok =>
        PubSub_unsubscribe tok ;;
        assign (set_vehicleOffSubscription None)
    | None => ret tt
    end ;;
    print ("Vehicle on and off topics unsubscribed" ++ nl).

(** What a subscribed function does when its topic is published. *)
Definition call (env : Env) (f : Callback) : M State unit :=
  match f with
  | onVehicleOn =>
      OvmsNotify_Raise Info "usr.abrp.status" "Vehicle on - starting route" ;;
      startRoute env
  | onVehicleOff =>
      OvmsNotify_Raise Info "usr.abrp.status" "Vehicle off - ending route" ;;
      endRoute
  | onTicker => sendTelemetry env false
  end.

(** [exports.info]; it has no [try], so a failed reading of the metrics
    reaches the caller. *)
Definition info (env : Env) : M State unit :=
  unloadConfig ;;
  telemetry <- getTelemetry env ;;
  emit (PrintTelemetry telemetry).

(** Publishing a topic calls the functions subscribed to it, oldest
    subscription first. *)
Fixpoint callEach (env : Env) (fs : list Callback) : M State unit :=
  match fs with
  | [] => ret tt
  | f :: rest => call env f ;; callEach env rest
  end.

Definition PubSub_publish (env : Env) (t : Topic) : M State unit :=
  fun w => callEach env (map sub_callback (live t (bus w))) w.

(** The ways into the script that read or write its variables, on the
    single dispatch thread: the console commands [send], [onetime], [info]
    and [autoSend], a published topic, and the completion of a request.
    The remaining export, [resetConfig], is not among them: it is one call
    of [OvmsConfig.Delete] on the store of the host and touches no
    variable of the script. *)
Inductive Action : Type :=
| do_send (start : bool)
| do_onetime
| do_info
| do_autoSend (enable : bool)
| do_publish (t : Topic)
| do_complete (c : Completion).

Definition step (env : Env) (a : Action) : M State unit :=
  match a with
  | do_send start => send env start
  | do_onetime => onetime env
  | do_info => info env
  | do_autoSend enable => autoSend enable
  | do_publish t => PubSub_publish env t
  | do_complete c => complete c
  end.

(** A history: actions, each with what the host answers during it.  An
    action that throws ends there; the next one starts from the state it
    left. *)
Fixpoint run (history : list (Env * Action)) (w : State) : State :=
  match history with
  | [] => w
  | (env, a) :: rest => run rest (exec (step env a) w)
  end.

(** The state once the script is loaded: every variable [null], nothing
    subscribed. *)
Definition loaded : State :=
  mkWorld (mkVars None None None None None) (mkPubSub [] 0) [Print "Module loaded"].

End Abrp.

(* ===================================================================== *)
(** ** abrp2.js, the earlier variant: route start and end *)
(* ===================================================================== *)

Module Abrp2.
Import Host.

(** The functions the script subscribes: [startRoute] and [endRoute] to
    the vehicle topics, [onTicker] to the ticker. *)
Inductive Callback : Type :=
| startRoute_cb
| endRoute_cb
| onTicker.       (* function () { sendTelemetry(false); } *)

Record Vars : Type := mkVars {
  vehicleOnSubscription : option nat;
  vehicleOffSubscription : option nat;
  tickerSubscription : option nat;
  currentTelemetry : option Telemetry;
  config : option Config
}.

Definition State : Type := World Callback Vars.

Definition set_tickerSubscription (x : option nat) (v : Vars) : Vars :=
  mkVars (vehicleOnSubscription v) (vehicleOffSubscription v) x
         (currentTelemetry v) (config v).
Definition set_currentTelemetry (x : option Telemetry) (v : Vars) : Vars :=
  mkVars (vehicleOnSubscription v) (vehicleOffSubscription v) (tickerSubscription v)
         x (config v).
Definition set_config (x : option Config) (v : Vars) : Vars :=
  mkVars (vehicleOnSubscription v) (vehicleOffSubscription v) (tickerSubscription v)
         (currentTelemetry v) x.

Definition handleError (error : Exn) (context : string) : M State unit :=
  emit (PrintError ("ABRP::" ++ context) error) ;;
  OvmsNotify_Raise Error "usr.abrp.status" (context ++ " error  - " ++ message error).

Definition startRoute : M State unit :=
  try_catch
    (assign (set_currentTelemetry None) ;;
     assign (set_config None) ;;
     tok <- PubSub_subscribe Ticker onTicker ;;
     assign (set_tickerSubscription (Some tok)) ;;
     print ("ABRP::Starting route - subscribed to interval topic" ++ nl) ;;
     OvmsNotify_Raise Info "usr.abrp.status" "ABRP route started")
    (fun error => handleError error "Start route").

Definition endRoute : M State unit :=
  try_catch
    (assign (set_currentTelemetry None) ;;
     assign (set_config None) ;;
     sub <- read tickerSubscription ;;
     match sub with
     | Some tok =>
         PubSub_unsubscribe tok ;;
         assign (set_tickerSubscription None)
     | None => ret tt
     end ;;
     print ("ABRP::Ending route - unsubscribed from interval topic" ++ nl) ;;
     OvmsNotify_Raise Info "usr.abrp.status" "ABRP route ended")
    (fun error => handleError error "End route").

(** The state once the script is loaded. *)
Definition loaded : State :=
  mkWorld (mkVars None None None None None) (mkPubSub [] 0) [].

End Abrp2.

(* ===================================================================== *)
(** ** plugin/slack/slack.js: the auto trigger *)
(* ===================================================================== *)

Module Slack.
Import Host.

Inductive Callback : Type :=
| vehicleOn
| vehicleOff
| sendTelemetry.

Record Vars : Type := mkVars {
  vehicleOnSubscription : option nat;
  vehicleOffSubscription : option nat;
  tickerSubscription : option nat
}.

Definition State : Type := World Callback Vars.

Definition set_vehicleOnSubscription (x : option nat) (v : Vars) : Vars :=
  mkVars x (vehicleOffSubscription v) (tickerSubscription v).
Definition set_vehicleOffSubscription (x : option nat) (v : Vars) : Vars :=
  mkVars (vehicleOnSubscription v) x (tickerSubscription v).

(** [exports.enableSendBetweenVehicleOnAndOff] *)
Definition enableSendBetweenVehicleOnAndOff : M State unit :=
  on <- read vehicleOnSubscription ;;
  match on with
  | None =>
      tok <- PubSub_subscribe VehicleOn vehicleOn ;;
      assign (set_vehicleOnSubscription (Some tok)) ;;
      print ("Vehicle on subscribed to" ++ nl)
  | Some _ => ret tt
  end ;;
  off <- read vehicleOffSubscription ;;
  match off with
  | None =>
      tok <- PubSub_subscribe VehicleOff vehicleOff ;;
      assign (set_vehicleOffSubscription (Some tok)) ;;
      print ("Vehicle off subscribed to" ++ nl)
  | Some _ => ret tt
  end ;;
  print ("Vehicle on and off topics subscribed" ++ nl).

Definition loaded : State :=
  mkWorld (mkVars None None None) (mkPubSub [] 0) [].

End Slack.

(* ===================================================================== *)
(** ** Observations on a state *)
(* ===================================================================== *)

(** The URLs [HTTP.Request] was called with, oldest first. *)
Fixpoint requests (evs : list Host.Event) : list Url :=
  match evs with
  | [] => []
  | Host.Request u :: rest => u :: requests rest
  | _ :: rest => requests rest
  end.

(** The error-severity notifications raised, oldest first. *)
Fixpoint errorsRaised (evs : list Host.Event) : list string :=
  match evs with
  | [] => []
  | Host.Raise Host.Error _ text :: rest => text :: errorsRaised rest
  | _ :: rest => errorsRaised rest
  end.

(** A watched field differs between two samples. *)
Definition differs (prev next : Telemetry) (i : Indicator) : Prop :=
  field prev i <> field next i.

(** No watched field of a sample is [NaN]. *)
Definition noNaN (t : Telemetry) : Prop :=
  forallb (fun i => negb (JS.is_NaN (field t i))) telemetryChangedIndicators = true.

(** A subscription variable and the registry agree on a topic: the live
    subscriptions to the topic are the one the variable holds, or none when
    it is [null]. *)
Definition bound {C : Type} (t : Host.Topic) (f : C) (handle : option nat)
  (r : Host.PubSub C) : Prop :=
  Host.live t r
  = match handle with
    | Some tok => [Host.mkSubscription tok t f]
    | None => []
    end.

(** The tokens of a registry are distinct and below the next one. *)
Definition fresh {C : Type} (r : Host.PubSub C) : Prop :=
  NoDup (map Host.sub_token (Host.subscriptions r)) /\
  Forall (fun s => Host.sub_token s < Host.nextUid r) (Host.subscriptions r).

(** The three subscription variables of [sendlivedata2abrp.js] describe the
    registry. *)
Definition consistent (w : Abrp.State) : Prop :=
  fresh (Host.bus w) /\
  bound Host.VehicleOn Abrp.onVehicleOn
        (Abrp.vehicleOnSubscription (Host.vars w)) (Host.bus w) /\
  bound Host.VehicleOff Abrp.onVehicleOff
        (Abrp.vehicleOffSubscription (Host.vars w)) (Host.bus w) /\
  bound Host.Ticker Abrp.onTicker
        (Abrp.tickerSubscription (Host.vars w)) (Host.bus w).

(** The state after [handleError(error, context)]: one printed line and one
    error notification more, nothing else changed. *)
Definition reported (context : string) (error : Host.Exn) (w : Abrp.State) : Abrp.State :=
  Host.mkWorld (Host.vars w) (Host.bus w)
    (Host.out w ++ [Host.PrintError context error;
                    Host.Raise Host.Error "usr.abrp.status"
                      (context ++ " error  - " ++ Host.message error)]).

(** An operation is its body inside a [try] whose [catch] reports: when the
    body returns, so does the operation, in the same state; when the body
    throws, the operation returns normally in the state the body left, with
    the error reported. *)
Definition guarded (body : Host.M Abrp.State unit) (context : string)
  (operation : Host.M Abrp.State unit) : Prop :=
  forall w,
    operation w
    = match body w with
      | (Host.Normal a, w1) => (Host.Normal a, w1)
      | (Host.Throw e, w1) => (Host.Normal tt, reported context e w1)
      end.

(** The contract of the change gate, [shouldSend(previous, next, force)]:
    accept without a previous sample or when forced, otherwise accept a
    valid sample that changed.  [sendCondition_shouldSend] shows that the
    condition in [sendTelemetry] computes it. *)
Definition shouldSend (previous : option Telemetry) (next : Telemetry) (force : bool)
  : bool :=
  match previous with
  | None => true
  | Some p => force || (negb (telemetryInvalid next) && telemetryChanged p next)
  end.

(** The configuration in force during a handler: the memoized one, or the
    one [loadConfig] builds. *)
Definition configOf (env : Abrp.Env) (w : Abrp.State) : Config :=
  match Abrp.configuration (Host.vars w) with
  | Some c => c
  | None =>
      {| url := Abrp.assigned (url Abrp.defaultConfiguration)
                              (stored_url (Abrp.config_values env));
         cfg_car_model := Abrp.assigned (cfg_car_model Abrp.defaultConfiguration)
                                        (stored_car_model (Abrp.config_values env));
         user_token := Abrp.assigned (user_token Abrp.defaultConfiguration)
                                     (stored_user_token (Abrp.config_values env)) |}
  end.

(** The URL [updateAbrp] requests for a sample under a configuration. *)
Definition urlOf (c : Config) (t : Telemetry) : Url :=
  mkUrl (url c) Abrp.OVMS_API_KEY (user_token c) t.

Module Samples.

Definition n (z : Z) : JS.number := JS.of_Z z.

(** A plausible sample: 80 % charge, 95 % health. *)
Definition driving : Telemetry :=
  {| utc := 1600000000; soc := n 80; soh := n 95; speed := n 50;
     car_model := "nissan:leaf:19:40"; lat := "37.771"; lon := "-122.419";
     alt := "16.0"; ext_temp := n 18; is_charging := false; batt_temp := n 25;
     voltage := n 360; current := n 12; power := "4.3" |}.

(** The same sample a minute later with other speed, voltage and current. *)
Definition driving_later : Telemetry :=
  {| utc := 1600000060; soc := n 80; soh := n 95; speed := n 63;
     car_model := "nissan:leaf:19:40"; lat := "37.771"; lon := "-122.419";
     alt := "16.0"; ext_temp := n 18; is_charging := false; batt_temp := n 25;
     voltage := n 358; current := n 17; power := "6.1" |}.

(** The sample of an unreadable bus: charge and health both 0. *)
Definition dropout : Telemetry :=
  {| utc := 1600000000; soc := n 0; soh := n 0; speed := n 0;
     car_model := "nissan:leaf:19:40"; lat := "0.000"; lon := "0.000";
     alt := "0.0"; ext_temp := n 0; is_charging := false; batt_temp := n 0;
     voltage := n 0; current := n 0; power := "0.0" |}.

(** A sample whose battery temperature did not parse as a number. *)
Definition no_batt_temp : Telemetry :=
  {| utc := 1600000000; soc := n 80; soh := n 95; speed := n 50;
     car_model := "nissan:leaf:19:40"; lat := "37.771"; lon := "-122.419";
     alt := "16.0"; ext_temp := n 18; is_charging := false; batt_temp := JS.NaN;
     voltage := n 360; current := n 12; power := "4.3" |}.

Definition reading_of (t : Telemetry) : Abrp.Reading :=
  {| Abrp.v_c_state := if is_charging t then "charging" else "stopped";
     Abrp.v_b_soc := soc t; Abrp.v_b_soh := soh t; Abrp.v_p_speed := speed t;
     Abrp.v_p_latitude := lat t; Abrp.v_p_longitude := lon t;
     Abrp.v_p_altitude := alt t; Abrp.v_e_temp := ext_temp t;
     Abrp.v_b_temp := batt_temp t; Abrp.v_b_voltage := voltage t;
     Abrp.v_b_current := current t; Abrp.v_b_power := power t |}.

Definition stored : ConfigValues :=
  mkConfigValues None (Some "nissan:leaf:19:40") (Some "f00d-cafe").

(** A host on which the metrics read as the sample and the request is
    accepted. *)
Definition env_of (t : Telemetry) : Abrp.Env :=
  Abrp.mkEnv stored (inr (reading_of t)) (utc t) None.

(** The same, but [HTTP.Request] throws. *)
Definition env_http_down (t : Telemetry) : Abrp.Env :=
  Abrp.mkEnv stored (inr (reading_of t)) (utc t)
             (Some (Host.mkError "network unreachable")).

(** A host on which reading the metrics throws. *)
Definition env_metrics_down : Abrp.Env :=
  Abrp.mkEnv stored (inl (Host.mkError "undefined is not an object")) 0 None.

(** The state with a given current telemetry and nothing else. *)
Definition after (prev : option Telemetry) : Abrp.State :=
  Host.mkWorld (Abrp.mkVars None None None prev None) (Host.mkPubSub [] 0) [].

End Samples.


(* ===================================================================== *)
(** ** abrp2.js: the change gate and the auto trigger *)
(* ===================================================================== *)

Module Abrp2Rest.
Import Host.

(** The [keys] array of [telemetryIsValidAndHasChanged]. *)
Definition keys : list Indicator :=
  [k_soc; k_soh; k_lat; k_lon; k_alt; k_is_charging; k_batt_temp; k_ext_temp].

Definition keyName (key : Indicator) : string :=
  match key with
  | k_soc => "soc"
  | k_soh => "soh"
  | k_lat => "lat"
  | k_lon => "lon"
  | k_alt => "alt"
  | k_is_charging => "is_charging"
  | k_batt_temp => "batt_temp"
  | k_ext_temp => "ext_temp"
  end.

(** [previous[key] != next[key]].  Under a key both records hold values of
    one type, two numbers or two strings, and on operands of one type [!=]
    compares as [!==] does. *)
Definition keyChanged (previous next : Telemetry) (key : Indicator) : bool :=
  match key with
  | k_soc => negb (JS.number_strict_eq (soc previous) (soc next))
  | k_soh => negb (JS.number_strict_eq (soh previous) (soh next))
  | k_lat => negb (String.eqb (lat previous) (lat next))
  | k_lon => negb (String.eqb (lon previous) (lon next))
  | k_alt => negb (String.eqb (alt previous) (alt next))
  | k_is_charging =>
      negb (JS.number_strict_eq (JS.of_bool (is_charging previous))
                                (JS.of_bool (is_charging next)))
  | k_batt_temp => negb (JS.number_strict_eq (batt_temp previous) (batt_temp next))
  | k_ext_temp => negb (JS.number_strict_eq (ext_temp previous) (ext_temp next))
  end.

Section Gate.

(** The string a value becomes when it is concatenated to a string. *)
Variable toString : JS.value -> string.

(** The line printed for the first key that changed. *)
Definition changedLine (previous next : Telemetry) (key : Indicator) : string :=
  "Telemetry [" ++ keyName key ++ "] has changed from ["
    ++ toString (field previous key) ++ "] to ["
    ++ toString (field next key) ++ "]" ++ nl.

(** The [for] loop over the keys from position [i] on, and what follows
    it. *)
Fixpoint scanKeys (previous next : Telemetry) (rest : list Indicator)
  : M Abrp2.State bool :=
  match rest with
  | [] =>
      print "ABRP::Telemetry not changed" ;;
      ret false
  | key :: rest' =>
      if keyChanged previous next key then
        print (changedLine previous next key) ;;
        ret true
      else scanKeys previous next rest'
  end.

Definition telemetryIsValidAndHasChanged (previous next : Telemetry)
  : M Abrp2.State bool :=
  if telemetryInvalid next then
    print ("ABRP::Telemetry invalid, canbus not readable: reset module and then put motors on"
             ++ nl) ;;
    ret false
  else scanKeys previous next keys.

End Gate.

Definition set_vehicleOnSubscription (x : option nat) (v : Abrp2.Vars) : Abrp2.Vars :=
  Abrp2.mkVars x (Abrp2.vehicleOffSubscription v) (Abrp2.tickerSubscription v)
               (Abrp2.currentTelemetry v) (Abrp2.config v).
Definition set_vehicleOffSubscription (x : option nat) (v : Abrp2.Vars) : Abrp2.Vars :=
  Abrp2.mkVars (Abrp2.vehicleOnSubscription v) x (Abrp2.tickerSubscription v)
               (Abrp2.currentTelemetry v) (Abrp2.config v).

Definition enableSendBetweenVehicleOnAndOff : M Abrp2.State unit :=
  on <- read Abrp2.vehicleOnSubscription ;;
  match on with
  | None =>
      tok <- PubSub_subscribe VehicleOn Abrp2.startRoute_cb ;;
      assign (set_vehicleOnSubscription (Some tok)) ;;
      print ("ABRP::Vehicle on subscribed to" ++ nl)
  | Some _ => ret tt
  end ;;
  off <- read Abrp2.vehicleOffSubscription ;;
  match off with
  | None =>
      tok <- PubSub_subscribe VehicleOff Abrp2.endRoute_cb ;;
      assign (set_vehicleOffSubscription (Some tok)) ;;
      print ("ABRP::Vehicle off subscribed to" ++ nl)
  | Some _ => ret tt
  end ;;
  print ("ABRP::Vehicle on and off topics subscribed" ++ nl).

Definition disableSendBetweenVehicleOnAndOff : M Abrp2.State unit :=
  on <- read Abrp2.vehicleOnSubscription ;;
  match on with
  | Some tok =>
      PubSub_unsubscribe tok ;;
      assign (set_vehicleOnSubscription None)
  | None => ret tt
  end ;;
  off <- read Abrp2.vehicleOffSubscription ;;
  match off with
  | Some tok =>
      PubSub_unsubscribe tok ;;
      assign (set_vehicleOffSubscription None)
  | None => ret tt
  end ;;
  print ("ABRP::Vehicle on and off topics unsubscribed" ++ nl).

End Abrp2Rest.

(* ===================================================================== *)
(** ** plugin/slack/slack.js: switching the auto trigger off *)
(* ===================================================================== *)

Module SlackRest.
Import Host.

(** [exports.disableSendBetweenVehicleOnAndOff] *)
Definition disableSendBetweenVehicleOnAndOff : M Slack.State unit :=
  on <- read Slack.vehicleOnSubscription ;;
  match on with
  | Some tok =>
      PubSub_unsubscribe tok ;;
      assign (Slack.set_vehicleOnSubscription None)
  | None => ret tt
  end ;;
  off <- read Slack.vehicleOffSubscription ;;
  match off with
  | Some tok =>
      PubSub_unsubscribe tok ;;
      assign (Slack.set_vehicleOffSubscription None)
  | None => ret tt
  end ;;
  print ("Vehicle on and off topics unsubscribed" ++ nl).

End SlackRest.

(* ===================================================================== *)
(** ** Further observations *)
(* ===================================================================== *)

(** [Object.assign({}, defaultConfiguration, values)]: the configuration
    [loadConfig] builds from the stored values. *)
Definition assignedConfig (values : ConfigValues) : Config :=
  {| url := Abrp.assigned (url Abrp.defaultConfiguration) (stored_url values);
     cfg_car_model :=
       Abrp.assigned (cfg_car_model Abrp.defaultConfiguration) (stored_car_model values);
     user_token :=
       Abrp.assigned (user_token Abrp.defaultConfiguration) (stored_user_token values) |}.

(** The same host with other values in the configuration store. *)
Definition withStored (values : ConfigValues) (env : Abrp.Env) : Abrp.Env :=
  Abrp.mkEnv values (Abrp.metrics env) (Abrp.clock env) (Abrp.request_error env).

(** The metrics can be read. *)
Definition readable (env : Abrp.Env) : bool :=
  match Abrp.metrics env with
  | inr _ => true
  | inl _ => false
  end.

(** The first key of [keys] under which two samples differ for [!=]. *)
Definition firstChangedKey (previous next : Telemetry) : option Indicator :=
  find (Abrp2Rest.keyChanged previous next) Abrp2Rest.keys.

(** The two handles of an auto trigger describe a registry whose tokens
    are distinct. *)
Definition triggerDescribed {C : Type} (fOn fOff : C) (on off : option nat)
  (r : Host.PubSub C) : Prop :=
  fresh r /\ bound Host.VehicleOn fOn on r /\ bound Host.VehicleOff fOff off r.

(** A sample whose state of charge did not parse as a number. *)
Definition sampleWithoutCharge : Telemetry :=
  {| utc := 1600000000; soc := JS.NaN; soh := JS.of_Z 95; speed := JS.of_Z 0;
     car_model := "nissan:leaf:19:40"; lat := "37.771"; lon := "-122.419";
     alt := "16.0"; ext_temp := JS.of_Z 18; is_charging := false;
     batt_temp := JS.of_Z 25; voltage := JS.of_Z 360; current := JS.of_Z 0;
     power := "0.0" |}.

(* ===================================================================== *)
(** ** sendlivedata2abrp.js on a registry whose calls may throw *)
(* ===================================================================== *)

(** [startRoute] and [endRoute] once more, with [PubSub.subscribe] and
    [PubSub.unsubscribe] taken as any computations on the state: they may
    throw, before or after changing it.  [Abrp.startRoute] and
    [Abrp.endRoute] are these at the registry calls of [Host], which never
    throw. *)
Module AbrpOn.
Import Host.

Section Registry.

Variable subscribe : Topic -> Abrp.Callback -> M Abrp.State nat.
Variable unsubscribe : nat -> M Abrp.State unit.

Definition startRoute_body (env : Abrp.Env) : M Abrp.State unit :=
  Abrp.unloadConfig ;;
  Abrp.sendTelemetry env true ;;
  sub <- read Abrp.tickerSubscription ;;
  match sub with
  | None =>
      tok <- subscribe Ticker Abrp.onTicker ;;
      assign (Abrp.set_tickerSubscription (Some tok))
  | Some _ => ret tt
  end ;;
  print ("Starting route - subscribed to ticker" ++ nl) ;;
  OvmsNotify_Raise Info "usr.abrp.status" "ABRP route started".

Definition startRoute (env : Abrp.Env) : M Abrp.State unit :=
  try_catch (startRoute_body env) (fun error => Abrp.handleError error "Start route").

Definition endRoute_body : M Abrp.State unit :=
  Abrp.unloadConfig ;;
  assign (Abrp.set_currentTelemetry None) ;;
  sub <- read Abrp.tickerSubscription ;;
  match sub with
  | Some tok =>
      unsubscribe tok ;;
      assign (Abrp.set_tickerSubscription None)
  | None => ret tt
  end ;;
  print ("Ending route - unsubscribed from ticker" ++ nl) ;;
  OvmsNotify_Raise Info "usr.abrp.status" "ABRP route ended".

Definition endRoute : M Abrp.State unit :=
  try_catch endRoute_body (fun error => Abrp.handleError error "End route").

(** [exports.send] *)
Definition send (env : Abrp.Env) (start : bool) : M Abrp.State unit :=
  if start then startRoute env else endRoute.

End Registry.

(** A registry that is out of order: both calls throw. *)
Definition registryDown : Exn := mkError "registry unavailable".

Definition failingSubscribe (t : Topic) (f : Abrp.Callback) : M Abrp.State nat :=
  throw registryDown.

Definition failingUnsubscribe (tok : nat) : M Abrp.State unit :=
  throw registryDown.

End AbrpOn.

(** A state with a running route: the ticker is subscribed under token 0. *)
Definition routeRunning : Abrp.State :=
  Host.mkWorld
    (Abrp.mkVars None None (Some 0%nat) (Some Samples.driving)
                 (Some Abrp.defaultConfiguration))
    (Host.mkPubSub [Host.mkSubscription 0 Host.Ticker Abrp.onTicker] 1) [].
(* ===================================================================== *)
(** ** Strict comparison *)
(* ===================================================================== *)

Lemma Qc_eq_bool_refl (q : Qc) : Qc_eq_bool q q = true.
Proof.
  unfold Qc_eq_bool. destruct (Qc_eq_dec q q) as [_ | ne]; [reflexivity | now elim ne].
Qed.

Lemma Qc_eq_bool_iff (p q : Qc) : Qc_eq_bool p q = true <-> p = q.
Proof.
  split; [apply Qc_eq_bool_correct | intros ->; apply Qc_eq_bool_refl].
Qed.

(** [===] on numbers is equality away from [NaN]. *)
Lemma number_strict_eq_iff (a b : JS.number) :
  JS.number_strict_eq a b = true <-> a = b /\ b <> JS.NaN.
Proof.
  destruct a, b; simpl; try rewrite Qc_eq_bool_iff;
    split; try (intros [E N]); try intros E; try discriminate;
    try (split; [congruence | discriminate]); congruence.
Qed.

(** [!==] holds of two values that differ, and of [NaN] against anything. *)
Lemma strict_ne_iff (a b : JS.value) :
  JS.strict_ne a b = true <-> a <> b \/ b = JS.Num JS.NaN.
Proof.
  unfold JS.strict_ne. rewrite negb_true_iff, <- not_true_iff_false.
  destruct a as [x | s], b as [y | t]; simpl.
  - rewrite number_strict_eq_iff. split.
    + intros H. destruct y; try (left; intros E; apply H; split;
        [congruence | discriminate]). now right.
    + intros [H | H] [E N]; [apply H; congruence | apply N; congruence].
  - split; [intros _; left; discriminate | intros _ H; discriminate].
  - split; [intros _; left; discriminate | intros _ H; discriminate].
  - rewrite String.eqb_eq. split.
    + intros H. left. congruence.
    + intros [H | H] E; [apply H; congruence | discriminate].
Qed.

Lemma telemetryChanged_iff (prev next : Telemetry) :
  telemetryChanged prev next = true <->
  exists i, In i telemetryChangedIndicators /\
            (differs prev next i \/ field next i = JS.Num JS.NaN).
Proof.
  unfold telemetryChanged, differs. rewrite existsb_exists.
  split; intros [i [Hin H]]; exists i; (split; [exact Hin | ]);
    now apply strict_ne_iff.
Qed.

Lemma noNaN_field (t : Telemetry) (i : Indicator) :
  noNaN t -> In i telemetryChangedIndicators -> field t i <> JS.Num JS.NaN.
Proof.
  unfold noNaN. rewrite forallb_forall. intros H Hin E.
  specialize (H i Hin). rewrite E in H. discriminate.
Qed.

(** Without [NaN] in the new sample, "changed" is "some watched field
    differs". *)
Lemma telemetryChanged_noNaN (prev next : Telemetry) :
  noNaN next ->
  (telemetryChanged prev next = true <->
   exists i, In i telemetryChangedIndicators /\ differs prev next i).
Proof.
  intros HN. rewrite telemetryChanged_iff.
  split; intros [i [Hin H]]; exists i; (split; [exact Hin | ]).
  - destruct H as [H | H]; [exact H | now elim (noNaN_field next i HN Hin)].
  - now left.
Qed.

(* ===================================================================== *)
(** ** Running the sample-and-send cycle *)
(* ===================================================================== *)

Arguments telemetryInvalid : simpl never.
Arguments telemetryChanged : simpl never.
Arguments Abrp.telemetryOf : simpl never.
Arguments String.append : simpl never.

Lemma requests_app (xs ys : list Host.Event) :
  requests (xs ++ ys) = (requests xs ++ requests ys)%list.
Proof.
  induction xs as [| ev xs IH]; [reflexivity | ].
  destruct ev; simpl; rewrite ?IH; reflexivity.
Qed.

Lemma errorsRaised_app (xs ys : list Host.Event) :
  errorsRaised (xs ++ ys) = (errorsRaised xs ++ errorsRaised ys)%list.
Proof.
  induction xs as [| ev xs IH]; [reflexivity | ].
  destruct ev as [ | | | | | [ | ] | ]; simpl; rewrite ?IH; reflexivity.
Qed.

(** Unfolds the script down to the state record. *)
Ltac run_script :=
  unfold Abrp.sendTelemetry, Abrp.sendTelemetry_body, Abrp.sendCondition,
    Abrp.getTelemetry, Abrp.updateAbrp, Abrp.HTTP_Request, Abrp.OvmsMetrics_read,
    Abrp.isTelemetryValidAndHasChanged, Abrp.requestFail, Abrp.requestDone,
    Abrp.handleError, Abrp.loadConfig, Abrp.unloadConfig,
    Host.print, Host.OvmsNotify_Raise, Host.emit, Host.read, Host.assign,
    Host.gets, Host.modify, Host.exec, Host.returns, Host.try_catch,
    Host.bind, Host.ret, Host.throw, configOf, urlOf in *;
  cbn in *.

(** The condition of the [if] in [sendTelemetry] evaluates to
    [shouldSend] of the current telemetry. *)
Lemma sendCondition_shouldSend (force : bool) (t : Telemetry) (w : Abrp.State) :
  fst (Abrp.sendCondition force t w)
  = Host.Normal (shouldSend (Abrp.currentTelemetry (Host.vars w)) t force).
Proof.
  destruct w as [[on off tick [prev | ] cfg] b o]; run_script; [ | reflexivity].
  destruct force; cbn; [reflexivity | ].
  destruct (telemetryInvalid t); cbn; reflexivity.
Qed.

(** What one cycle does when the metrics are readable: if the gate
    accepts, the sample is committed and requested under the configuration
    in force; otherwise neither the current telemetry nor the requests
    change.  The subscriptions are untouched either way. *)
Lemma sendTelemetry_run (env : Abrp.Env) (force : bool) (w : Abrp.State) (r : Abrp.Reading) :
  Abrp.metrics env = inr r ->
  let c := configOf env w in
  let t := Abrp.telemetryOf env c r in
  let w' := Host.exec (Abrp.sendTelemetry env force) w in
  (if shouldSend (Abrp.currentTelemetry (Host.vars w)) t force
   then Abrp.currentTelemetry (Host.vars w') = Some t /\
        requests (Host.out w') = (requests (Host.out w) ++ [urlOf c t])%list
   else Abrp.currentTelemetry (Host.vars w') = Abrp.currentTelemetry (Host.vars w) /\
        requests (Host.out w') = requests (Host.out w)) /\
  Host.bus w' = Host.bus w /\
  Abrp.tickerSubscription (Host.vars w') = Abrp.tickerSubscription (Host.vars w).
Proof.
  intros Hm.
  destruct env as [cv m clk re]; cbn in Hm; subst m.
  destruct w as [[on off tick cur cfg] b o].
  destruct cfg as [cfg | ], cur as [prev | ], force, re as [e | ];
    run_script;
    repeat match goal with
      | |- context [telemetryInvalid ?x] => destruct (telemetryInvalid x); cbn
      | |- context [if telemetryChanged ?x ?y then _ else _] =>
          destruct (telemetryChanged x y); cbn
      end;
    rewrite ?requests_app, ?app_nil_r; cbn; rewrite ?app_nil_r; auto.
Qed.

(* ===================================================================== *)
(** ** The change gate *)
(* ===================================================================== *)

(** C1 (as amended).  With a previous sample [prev] and a new sample [next]
    whose [soh + soc] is not [0], the gate of an unforced send returns true
    exactly when some watched field differs between [prev] and [next] or is
    [NaN] in [next] (a [NaN] is [!==] to itself).  When no watched field of
    [next] is [NaN] this is: exactly when some watched field differs; so
    samples that agree on the eight watched fields, whatever their speed,
    voltage or current, and identical samples, are rejected. *)
Theorem C1_gate_accepts_iff_watched_field_differs_or_is_NaN
  (prev next : Telemetry) (w : Abrp.State) :
  Abrp.currentTelemetry (Host.vars w) = Some prev ->
  telemetryInvalid next = false ->
  (fst (Abrp.sendCondition false next w) = Host.Normal true <->
   exists i, In i telemetryChangedIndicators /\
             (differs prev next i \/ field next i = JS.Num JS.NaN))
  /\
  (noNaN next ->
   (fst (Abrp.sendCondition false next w) = Host.Normal true <->
    exists i, In i telemetryChangedIndicators /\ differs prev next i)
   /\
   ((forall i, In i telemetryChangedIndicators -> field prev i = field next i) ->
    fst (Abrp.sendCondition false next w) = Host.Normal false)).
Proof.
  intros Hprev Hvalid.
  rewrite sendCondition_shouldSend, Hprev. unfold shouldSend.
  rewrite Hvalid. cbn [orb negb andb].
  assert (Hinj : forall b, Host.Normal (A:=bool) b = Host.Normal true <-> b = true)
    by (intros b; split; congruence).
  split; [ | intros HN; split].
  - rewrite Hinj. apply telemetryChanged_iff.
  - rewrite Hinj. now apply telemetryChanged_noNaN.
  - intros Hsame. f_equal. apply not_true_is_false.
    rewrite (telemetryChanged_noNaN prev next HN).
    intros [i [Hin Hd]]. apply Hd, Hsame, Hin.
Qed.

Lemma C1_witness :
  fst (Abrp.sendCondition false Samples.driving_later
         (Samples.after (Some Samples.driving))) = Host.Normal false.
Proof.
  destruct (C1_gate_accepts_iff_watched_field_differs_or_is_NaN
              Samples.driving Samples.driving_later
              (Samples.after (Some Samples.driving)) eq_refl eq_refl) as [_ H].
  destruct (H eq_refl) as [_ Hsame].
  apply Hsame. intros i _. destruct i; reflexivity.
Defined.

(** C1 as stated fails: a sample whose battery temperature is [NaN] passes
    the validity guard and is accepted against itself, although no watched
    field differs. *)
Lemma C1_counterexample :
  telemetryInvalid Samples.no_batt_temp = false /\
  fst (Abrp.sendCondition false Samples.no_batt_temp
         (Samples.after (Some Samples.no_batt_temp))) = Host.Normal true /\
  ~ (exists i, In i telemetryChangedIndicators /\
               differs Samples.no_batt_temp Samples.no_batt_temp i).
Proof.
  split; [reflexivity | split; [reflexivity | ]].
  intros [i [_ Hd]]. now apply Hd.
Qed.

(** C2 (as amended).  With a previous sample, a new sample whose
    [soh + soc] is [0] is rejected by an unforced send: the gate returns
    false, no request is made and the current telemetry stays the previous
    sample. *)
Theorem C2_invalid_sample_rejected_after_first
  (prev s : Telemetry) (w : Abrp.State) (env : Abrp.Env) (r : Abrp.Reading) :
  Abrp.currentTelemetry (Host.vars w) = Some prev ->
  telemetryInvalid s = true ->
  Abrp.metrics env = inr r ->
  Abrp.telemetryOf env (configOf env w) r = s ->
  let w' := Host.exec (Abrp.sendTelemetry env false) w in
  fst (Abrp.sendCondition false s w) = Host.Normal false /\
  requests (Host.out w') = requests (Host.out w) /\
  Abrp.currentTelemetry (Host.vars w') = Some prev.
Proof.
  intros Hprev Hinv Hm Ht. split.
  - rewrite sendCondition_shouldSend, Hprev. cbn. now rewrite Hinv.
  - destruct (sendTelemetry_run env false w r Hm) as [Hgate _].
    rewrite Ht, Hprev in Hgate. cbn in Hgate. rewrite Hinv in Hgate.
    cbn in Hgate. destruct Hgate as [Hcur Hreq]. split; [exact Hreq | exact Hcur].
Qed.

Lemma C2_witness :
  let w := Samples.after (Some Samples.driving) in
  let w' := Host.exec (Abrp.sendTelemetry (Samples.env_of Samples.dropout) false) w in
  fst (Abrp.sendCondition false Samples.dropout w) = Host.Normal false /\
  requests (Host.out w') = requests (Host.out w) /\
  Abrp.currentTelemetry (Host.vars w') = Some Samples.driving.
Proof.
  apply (C2_invalid_sample_rejected_after_first
           Samples.driving Samples.dropout (Samples.after (Some Samples.driving))
           (Samples.env_of Samples.dropout) (Samples.reading_of Samples.dropout));
    reflexivity.
Defined.

(** C2 as stated fails for [prev = null]: the first sample of a session is
    sent although its [soh + soc] is [0]. *)
Lemma C2_counterexample :
  telemetryInvalid Samples.dropout = true /\
  fst (Abrp.sendCondition false Samples.dropout (Samples.after None))
  = Host.Normal true /\
  requests (Host.out (Host.exec (Abrp.sendTelemetry (Samples.env_of Samples.dropout) false)
                                (Samples.after None)))
  = [mkUrl "http://api.iternio.com/1/tlm/send" Abrp.OVMS_API_KEY "f00d-cafe"
           Samples.dropout].
Proof.
  repeat split; reflexivity.
Qed.

(** C3.  Without a previous sample an unforced send accepts every sample:
    the gate returns true, the sample becomes the current telemetry and
    [HTTP.Request] is called with the URL that carries it. *)
Theorem C3_first_sample_always_sent
  (s : Telemetry) (w : Abrp.State) (env : Abrp.Env) (r : Abrp.Reading) :
  Abrp.currentTelemetry (Host.vars w) = None ->
  Abrp.metrics env = inr r ->
  Abrp.telemetryOf env (configOf env w) r = s ->
  let w' := Host.exec (Abrp.sendTelemetry env false) w in
  fst (Abrp.sendCondition false s w) = Host.Normal true /\
  Abrp.currentTelemetry (Host.vars w') = Some s /\
  requests (Host.out w') = (requests (Host.out w) ++ [urlOf (configOf env w) s])%list.
Proof.
  intros Hnone Hm Ht. split.
  - rewrite sendCondition_shouldSend, Hnone. reflexivity.
  - destruct (sendTelemetry_run env false w r Hm) as [Hgate _].
    rewrite Ht, Hnone in Hgate. exact Hgate.
Qed.

Lemma C3_witness :
  let w := Samples.after None in
  let w' := Host.exec (Abrp.sendTelemetry (Samples.env_of Samples.dropout) false) w in
  fst (Abrp.sendCondition false Samples.dropout w) = Host.Normal true /\
  Abrp.currentTelemetry (Host.vars w') = Some Samples.dropout /\
  requests (Host.out w')
  = (requests (Host.out w)
       ++ [urlOf (configOf (Samples.env_of Samples.dropout) w) Samples.dropout])%list.
Proof.
  apply (C3_first_sample_always_sent
           Samples.dropout (Samples.after None)
           (Samples.env_of Samples.dropout) (Samples.reading_of Samples.dropout));
    reflexivity.
Defined.

(** Every evaluation of [isTelemetryValidAndHasChanged] prints one line. *)
Lemma isTelemetryValidAndHasChanged_prints (p n : Telemetry) (w : Abrp.State) :
  exists line,
    Host.out (snd (Abrp.isTelemetryValidAndHasChanged p n w))
    = (Host.out w ++ [Host.Print line])%list.
Proof.
  destruct w as [v b o]. run_script.
  destruct (telemetryInvalid n); cbn; eexists; reflexivity.
Qed.

(** C4.  A forced send accepts every sample, whatever the current
    telemetry and even when [soh + soc] is [0]: the condition is true
    without evaluating [isTelemetryValidAndHasChanged] (the state, and with
    it the printed output, is untouched, while an evaluation would have
    printed a line), the sample becomes the current telemetry and
    [HTTP.Request] is called with the URL that carries it. *)
Theorem C4_forced_send_bypasses_guard_and_comparison
  (s : Telemetry) (w : Abrp.State) (env : Abrp.Env) (r : Abrp.Reading) :
  Abrp.metrics env = inr r ->
  Abrp.telemetryOf env (configOf env w) r = s ->
  let w' := Host.exec (Abrp.sendTelemetry env true) w in
  Abrp.sendCondition true s w = (Host.Normal true, w) /\
  (forall p, Abrp.isTelemetryValidAndHasChanged p s w <> (Host.Normal true, w)) /\
  Abrp.currentTelemetry (Host.vars w') = Some s /\
  requests (Host.out w') = (requests (Host.out w) ++ [urlOf (configOf env w) s])%list.
Proof.
  intros Hm Ht. repeat split.
  - destruct w as [[on off tick [prev | ] cfg] b o]; reflexivity.
  - intros p E.
    destruct (isTelemetryValidAndHasChanged_prints p s w) as [line Hl].
    rewrite E in Hl. cbn in Hl.
    apply (f_equal (@length _)) in Hl. rewrite length_app in Hl. cbn in Hl. lia.
  - destruct (sendTelemetry_run env true w r Hm) as [Hgate _].
    rewrite Ht in Hgate.
    replace (shouldSend (Abrp.currentTelemetry (Host.vars w)) s true)
      with true in Hgate
      by (unfold shouldSend; destruct (Abrp.currentTelemetry (Host.vars w)); reflexivity).
    apply Hgate.
  - destruct (sendTelemetry_run env true w r Hm) as [Hgate _].
    rewrite Ht in Hgate.
    replace (shouldSend (Abrp.currentTelemetry (Host.vars w)) s true)
      with true in Hgate
      by (unfold shouldSend; destruct (Abrp.currentTelemetry (Host.vars w)); reflexivity).
    apply Hgate.
Qed.

Lemma C4_witness :
  let w := Samples.after (Some Samples.dropout) in
  let w' := Host.exec (Abrp.sendTelemetry (Samples.env_of Samples.dropout) true) w in
  Abrp.sendCondition true Samples.dropout w = (Host.Normal true, w) /\
  (forall p, Abrp.isTelemetryValidAndHasChanged p Samples.dropout w
             <> (Host.Normal true, w)) /\
  Abrp.currentTelemetry (Host.vars w') = Some Samples.dropout /\
  requests (Host.out w')
  = (requests (Host.out w)
       ++ [urlOf (configOf (Samples.env_of Samples.dropout) w) Samples.dropout])%list.
Proof.
  apply (C4_forced_send_bypasses_guard_and_comparison
           Samples.dropout (Samples.after (Some Samples.dropout))
           (Samples.env_of Samples.dropout) (Samples.reading_of Samples.dropout));
    reflexivity.
Defined.

(* ===================================================================== *)
(** ** The registry *)
(* ===================================================================== *)

Section RegistryFacts.

Context {C : Type}.
Implicit Types (r : Host.PubSub C) (t : Host.Topic) (f : C) (tok : nat).

Lemma Topic_eqb_eq t t' : Host.Topic_eqb t t' = true <-> t = t'.
Proof. destruct t, t'; simpl; split; congruence. Qed.

Lemma Topic_eqb_refl t : Host.Topic_eqb t t = true.
Proof. now apply Topic_eqb_eq. Qed.

Lemma Topic_eqb_neq t t' : t <> t' -> Host.Topic_eqb t t' = false.
Proof. intros H. apply not_true_is_false. now rewrite Topic_eqb_eq. Qed.

Lemma live_subscribe_same t f r :
  Host.live t (snd (Host.subscribe t f r))
  = (Host.live t r ++ [Host.mkSubscription (Host.nextUid r) t f])%list.
Proof.
  unfold Host.live, Host.subscribe. simpl.
  rewrite filter_app. simpl. now rewrite Topic_eqb_refl.
Qed.

Lemma live_subscribe_other t t' f r :
  t <> t' -> Host.live t' (snd (Host.subscribe t f r)) = Host.live t' r.
Proof.
  intros H. unfold Host.live, Host.subscribe. simpl.
  rewrite filter_app. simpl. rewrite (Topic_eqb_neq _ _ H). apply app_nil_r.
Qed.

Lemma filter_comm {A} (p q : A -> bool) (l : list A) :
  filter p (filter q l) = filter q (filter p l).
Proof.
  induction l as [| a l IH]; [reflexivity | ]. simpl.
  destruct (p a) eqn:Hp, (q a) eqn:Hq; simpl; rewrite ?Hp, ?Hq, IH; reflexivity.
Qed.

Lemma live_unsubscribe t tok r :
  Host.live t (Host.unsubscribe tok r)
  = filter (fun s => negb (Nat.eqb (Host.sub_token s) tok)) (Host.live t r).
Proof. unfold Host.live, Host.unsubscribe. simpl. apply filter_comm. Qed.

Lemma In_live s t r :
  In s (Host.live t r) <-> In s (Host.subscriptions r) /\ Host.sub_topic s = t.
Proof. unfold Host.live. now rewrite filter_In, Topic_eqb_eq. Qed.

Lemma NoDup_map_In_inj {A B} (g : A -> B) (l : list A) (a b : A) :
  NoDup (map g l) -> In a l -> In b l -> g a = g b -> a = b.
Proof.
  induction l as [| x l IH]; simpl; [tauto | ].
  intros Hnd Ha Hb E. inversion Hnd as [| ? ? Hx Hl]; subst.
  destruct Ha as [-> | Ha], Hb as [-> | Hb]; auto.
  - elim Hx. rewrite E. now apply in_map.
  - elim Hx. rewrite <- E. now apply in_map.
Qed.

Lemma fresh_subscribe t f r : fresh r -> fresh (snd (Host.subscribe t f r)).
Proof.
  intros [Hnd Hlt]. unfold fresh, Host.subscribe. simpl. split.
  - rewrite map_app. simpl. apply NoDup_app; [exact Hnd | repeat constructor; auto | ].
    intros x Hin [<- | []]. apply in_map_iff in Hin. destruct Hin as [s [Es Hs]].
    rewrite Forall_forall in Hlt. specialize (Hlt s Hs). lia.
  - apply Forall_app. split.
    + eapply Forall_impl; [ | exact Hlt]. simpl. intros; lia.
    + repeat constructor.
Qed.

Lemma NoDup_map_filter {A B} (g : A -> B) (p : A -> bool) (l : list A) :
  NoDup (map g l) -> NoDup (map g (filter p l)).
Proof.
  induction l as [| a l IH]; simpl; [auto | ].
  intros Hnd. inversion Hnd as [| ? ? Hx Hl]; subst.
  destruct (p a); simpl; [constructor | ]; auto.
  intros Hin. apply Hx. apply in_map_iff in Hin. destruct Hin as [s [Es Hs]].
  apply filter_In in Hs. rewrite <- Es. apply in_map. tauto.
Qed.

Lemma fresh_unsubscribe tok r : fresh r -> fresh (Host.unsubscribe tok r).
Proof.
  intros [Hnd Hlt]. unfold fresh, Host.unsubscribe. simpl. split.
  - now apply NoDup_map_filter.
  - rewrite Forall_forall in *. intros s Hs. apply filter_In in Hs. now apply Hlt.
Qed.

Lemma bound_subscribe_same t f r :
  bound t f None r -> bound t f (Some (Host.nextUid r)) (snd (Host.subscribe t f r)).
Proof. unfold bound. intros H. now rewrite live_subscribe_same, H. Qed.

Lemma bound_subscribe_other t f t' f' h r :
  t <> t' -> bound t' f' h r -> bound t' f' h (snd (Host.subscribe t f r)).
Proof. unfold bound. intros Hne H. now rewrite live_subscribe_other. Qed.

Lemma bound_unsubscribe_same t f tok r :
  bound t f (Some tok) r -> bound t f None (Host.unsubscribe tok r).
Proof.
  unfold bound. intros H. rewrite live_unsubscribe, H. simpl.
  now rewrite Nat.eqb_refl.
Qed.

Lemma bound_unsubscribe_other t f tok t' f' h r :
  fresh r -> t <> t' ->
  bound t f (Some tok) r -> bound t' f' h r ->
  bound t' f' h (Host.unsubscribe tok r).
Proof.
  unfold bound. intros [Hnd _] Hne H H'. rewrite live_unsubscribe, H'.
  destruct h as [tok' | ]; [ | reflexivity]. simpl.
  destruct (Nat.eqb_spec tok' tok) as [E | _]; [ | reflexivity].
  exfalso. apply Hne.
  assert (Ha : In (Host.mkSubscription tok t f) (Host.live t r))
    by (rewrite H; now left).
  assert (Hb : In (Host.mkSubscription tok' t' f') (Host.live t' r))
    by (rewrite H'; now left).
  apply In_live in Ha, Hb. destruct Ha as [Ha _], Hb as [Hb _].
  assert (Es := NoDup_map_In_inj Host.sub_token _ _ _ Hnd Ha Hb (eq_sym E)).
  congruence.
Qed.

End RegistryFacts.

(* ===================================================================== *)
(** ** Route start and end *)
(* ===================================================================== *)

Arguments Abrp.sendTelemetry : simpl never.

(** [sendTelemetry] returns normally on every host and in every state, and
    touches neither the registry nor a subscription variable. *)
Lemma sendTelemetry_frame (env : Abrp.Env) (force : bool) (w : Abrp.State) :
  let w' := Host.exec (Abrp.sendTelemetry env force) w in
  Abrp.sendTelemetry env force w = (Host.Normal tt, w') /\
  Host.bus w' = Host.bus w /\
  Abrp.vehicleOnSubscription (Host.vars w') = Abrp.vehicleOnSubscription (Host.vars w) /\
  Abrp.vehicleOffSubscription (Host.vars w') = Abrp.vehicleOffSubscription (Host.vars w) /\
  Abrp.tickerSubscription (Host.vars w') = Abrp.tickerSubscription (Host.vars w).
Proof.
  destruct env as [cv [e | r] clk re];
  destruct w as [[on off tick cur cfg] b o];
  destruct cfg as [cfg | ], cur as [prev | ], force, re as [e' | ];
    run_script;
    repeat match goal with
      | |- context [telemetryInvalid ?x] => destruct (telemetryInvalid x); cbn
      | |- context [if telemetryChanged ?x ?y then _ else _] =>
          destruct (telemetryChanged x y); cbn
      end;
    auto.
Qed.

Lemma startRoute_run (env : Abrp.Env) (w : Abrp.State) :
  let w1 := Host.exec (Abrp.sendTelemetry env true) (Host.exec Abrp.unloadConfig w) in
  let w2 :=
    match Abrp.tickerSubscription (Host.vars w1) with
    | None =>
        Host.mkWorld
          (Abrp.set_tickerSubscription (Some (Host.nextUid (Host.bus w1))) (Host.vars w1))
          (snd (Host.subscribe Host.Ticker Abrp.onTicker (Host.bus w1)))
          (Host.out w1)
    | Some _ => w1
    end in
  Abrp.startRoute env w
  = (Host.Normal tt,
     Host.mkWorld (Host.vars w2) (Host.bus w2)
       (Host.out w2 ++ [Host.Print ("Starting route - subscribed to ticker" ++ Host.nl);
                        Host.Raise Host.Info "usr.abrp.status" "ABRP route started"])).
Proof.
  intros w1 w2. subst w2.
  unfold Abrp.startRoute, Abrp.startRoute_body, Host.try_catch.
  unfold Host.bind at 1. unfold Abrp.unloadConfig at 1, Host.assign at 1, Host.modify at 1.
  unfold Host.bind at 1.
  match goal with
  | |- context [Abrp.sendTelemetry env true ?w0] =>
      destruct (sendTelemetry_frame env true w0) as [E _]; rewrite E;
      change (Host.exec (Abrp.sendTelemetry env true) w0) with w1
  end.
  clearbody w1. destruct w1 as [[on off [tok | ] cur cfg] b o];
    cbn; rewrite <- app_assoc; reflexivity.
Qed.

Lemma endRoute_run (w : Abrp.State) :
  let v1 := Abrp.set_currentTelemetry None (Abrp.set_configuration None (Host.vars w)) in
  let w2 :=
    match Abrp.tickerSubscription (Host.vars w) with
    | Some tok =>
        Host.mkWorld (Abrp.set_tickerSubscription None v1)
                     (Host.unsubscribe tok (Host.bus w)) (Host.out w)
    | None => Host.mkWorld v1 (Host.bus w) (Host.out w)
    end in
  Abrp.endRoute w
  = (Host.Normal tt,
     Host.mkWorld (Host.vars w2) (Host.bus w2)
       (Host.out w2 ++ [Host.Print ("Ending route - unsubscribed from ticker" ++ Host.nl);
                        Host.Raise Host.Info "usr.abrp.status" "ABRP route ended"])).
Proof.
  destruct w as [[on off [tok | ] cur cfg] b o]; cbn; rewrite <- app_assoc; reflexivity.
Qed.

Lemma autoSend_run (enable : bool) (w : Abrp.State) :
  exists o',
    Abrp.autoSend enable w
    = (Host.Normal tt,
       if enable then
         let w1 :=
           match Abrp.vehicleOnSubscription (Host.vars w) with
           | None =>
               Host.mkWorld
                 (Abrp.set_vehicleOnSubscription (Some (Host.nextUid (Host.bus w)))
                                                 (Host.vars w))
                 (snd (Host.subscribe Host.VehicleOn Abrp.onVehicleOn (Host.bus w)))
                 (Host.out w)
           | Some _ => w
           end in
         match Abrp.vehicleOffSubscription (Host.vars w1) with
         | None =>
             Host.mkWorld
               (Abrp.set_vehicleOffSubscription (Some (Host.nextUid (Host.bus w1)))
                                                (Host.vars w1))
               (snd (Host.subscribe Host.VehicleOff Abrp.onVehicleOff (Host.bus w1)))
               o'
         | Some _ => Host.mkWorld (Host.vars w1) (Host.bus w1) o'
         end
       else
         let w1 :=
           match Abrp.vehicleOnSubscription (Host.vars w) with
           | Some tok =>
               Host.mkWorld (Abrp.set_vehicleOnSubscription None (Host.vars w))
                            (Host.unsubscribe tok (Host.bus w)) (Host.out w)
           | None => w
           end in
         match Abrp.vehicleOffSubscription (Host.vars w1) with
         | Some tok =>
             Host.mkWorld (Abrp.set_vehicleOffSubscription None (Host.vars w1))
                          (Host.unsubscribe tok (Host.bus w1)) o'
         | None => Host.mkWorld (Host.vars w1) (Host.bus w1) o'
         end).
Proof.
  destruct w as [[[on | ] [off | ] tick cur cfg] b o], enable; cbn; eexists; reflexivity.
Qed.

Arguments Host.subscribe : simpl never.
Arguments Host.unsubscribe : simpl never.

Lemma consistent_frame (w w' : Abrp.State) :
  Host.bus w' = Host.bus w ->
  Abrp.vehicleOnSubscription (Host.vars w') = Abrp.vehicleOnSubscription (Host.vars w) ->
  Abrp.vehicleOffSubscription (Host.vars w') = Abrp.vehicleOffSubscription (Host.vars w) ->
  Abrp.tickerSubscription (Host.vars w') = Abrp.tickerSubscription (Host.vars w) ->
  consistent w -> consistent w'.
Proof. unfold consistent. intros -> -> -> ->. auto. Qed.

Lemma sendTelemetry_consistent (env : Abrp.Env) (force : bool) (w : Abrp.State) :
  consistent w -> consistent (Host.exec (Abrp.sendTelemetry env force) w).
Proof.
  destruct (sendTelemetry_frame env force w) as [_ [Hb [Hon [Hoff Htick]]]].
  now apply consistent_frame.
Qed.

(** Closes the goals of the preservation lemmas with the registry facts. *)
Ltac registry :=
  repeat match goal with
    | |- _ /\ _ => split
    | |- fresh (snd (Host.subscribe _ _ _)) => apply fresh_subscribe
    | |- fresh (Host.unsubscribe _ _) => apply fresh_unsubscribe
    | |- bound ?t _ (Some (Host.nextUid ?r)) (snd (Host.subscribe ?t _ ?r)) =>
        apply bound_subscribe_same
    | |- bound _ _ _ (snd (Host.subscribe _ _ _)) =>
        apply bound_subscribe_other; [discriminate | ]
    | H : bound ?t ?f (Some ?tok) _ |- bound ?t _ None (Host.unsubscribe ?tok _) =>
        apply (bound_unsubscribe_same t f tok)
    | H : bound ?t ?f (Some ?tok) _ |- bound _ _ _ (Host.unsubscribe ?tok _) =>
        apply (bound_unsubscribe_other t f tok); [ | discriminate | | ]
    | |- _ => assumption
    end.

Lemma startRoute_consistent (env : Abrp.Env) (w : Abrp.State) :
  consistent w -> consistent (Host.exec (Abrp.startRoute env) w).
Proof.
  intros Hc. unfold Host.exec at 1. rewrite startRoute_run. cbn [snd].
  assert (Hc1 : consistent
                  (Host.exec (Abrp.sendTelemetry env true) (Host.exec Abrp.unloadConfig w))).
  { apply sendTelemetry_consistent. revert Hc. now apply consistent_frame. }
  set (w1 := Host.exec (Abrp.sendTelemetry env true) (Host.exec Abrp.unloadConfig w)) in *.
  clearbody w1. destruct w1 as [[on off [tok | ] cur cfg] b o];
    unfold consistent in *; cbn in *;
    destruct Hc1 as [Hf [Hon [Hoff Htick]]]; registry.
Qed.

Lemma endRoute_consistent (w : Abrp.State) :
  consistent w -> consistent (Host.exec Abrp.endRoute w).
Proof.
  intros Hc. unfold Host.exec. rewrite endRoute_run. cbn [snd].
  destruct w as [[on off [tok | ] cur cfg] b o];
    unfold consistent in *; cbn in *;
    destruct Hc as [Hf [Hon [Hoff Htick]]]; registry.
Qed.

Lemma autoSend_consistent (enable : bool) (w : Abrp.State) :
  consistent w -> consistent (Host.exec (Abrp.autoSend enable) w).
Proof.
  intros Hc. unfold Host.exec. destruct (autoSend_run enable w) as [o' ->]. cbn [snd].
  destruct w as [[[on | ] [off | ] tick cur cfg] b o], enable;
    unfold consistent in *; cbn in *;
    destruct Hc as [Hf [Hon [Hoff Htick]]]; registry.
Qed.

Lemma requestDone_run (statusCode : Z) (w : Abrp.State) :
  exists evs,
    Abrp.requestDone statusCode w
    = (Host.Normal tt, Host.mkWorld (Host.vars w) (Host.bus w) (Host.out w ++ evs)).
Proof.
  destruct w as [v b o]. unfold Abrp.requestDone.
  destruct (Z.eqb statusCode 200).
  - exists []. cbn. now rewrite app_nil_r.
  - eexists [_; _]. run_script. rewrite <- app_assoc. reflexivity.
Qed.

Lemma requestFail_run (error : Host.Exn) (w : Abrp.State) :
  Abrp.requestFail error w
  = (Host.Normal tt,
     Host.mkWorld (Host.vars w) (Host.bus w)
       (Host.out w ++ [Host.PrintError "HTTP request" error;
                       Host.Raise Host.Error "usr.abrp.status"
                         ("HTTP request" ++ " error  - " ++ Host.message error)])).
Proof.
  destruct w as [v b o]. run_script. rewrite <- app_assoc. reflexivity.
Qed.

Lemma info_frame (env : Abrp.Env) (w : Abrp.State) :
  let w' := Host.exec (Abrp.info env) w in
  Host.bus w' = Host.bus w /\
  Abrp.vehicleOnSubscription (Host.vars w') = Abrp.vehicleOnSubscription (Host.vars w) /\
  Abrp.vehicleOffSubscription (Host.vars w') = Abrp.vehicleOffSubscription (Host.vars w) /\
  Abrp.tickerSubscription (Host.vars w') = Abrp.tickerSubscription (Host.vars w).
Proof.
  destruct env as [cv [e | r] clk re], w as [[on off tick cur cfg] b o];
    unfold Abrp.info; run_script; auto.
Qed.

(** A subscribed function returns normally, whatever the host does. *)
Lemma call_normal (env : Abrp.Env) (f : Abrp.Callback) (w : Abrp.State) :
  Abrp.call env f w = (Host.Normal tt, Host.exec (Abrp.call env f) w).
Proof.
  unfold Host.exec. destruct f; unfold Abrp.call.
  - unfold Host.bind, Host.OvmsNotify_Raise, Host.emit, Host.modify.
    now rewrite startRoute_run.
  - unfold Host.bind, Host.OvmsNotify_Raise, Host.emit, Host.modify.
    now rewrite endRoute_run.
  - now destruct (sendTelemetry_frame env false w) as [-> _].
Qed.

Lemma call_consistent (env : Abrp.Env) (f : Abrp.Callback) (w : Abrp.State) :
  consistent w -> consistent (Host.exec (Abrp.call env f) w).
Proof.
  intros Hc. destruct f.
  - apply (startRoute_consistent env
             (Host.mkWorld (Host.vars w) (Host.bus w)
                (Host.out w ++ [Host.Raise Host.Info "usr.abrp.status"
                                  "Vehicle on - starting route"]))).
    revert Hc. now apply consistent_frame.
  - apply (endRoute_consistent
             (Host.mkWorld (Host.vars w) (Host.bus w)
                (Host.out w ++ [Host.Raise Host.Info "usr.abrp.status"
                                  "Vehicle off - ending route"]))).
    revert Hc. now apply consistent_frame.
  - now apply sendTelemetry_consistent.
Qed.

Lemma callEach_consistent (env : Abrp.Env) (fs : list Abrp.Callback) (w : Abrp.State) :
  consistent w -> consistent (Host.exec (Abrp.callEach env fs) w).
Proof.
  revert w. induction fs as [| f fs IH]; intros w Hc; [exact Hc | ].
  unfold Host.exec. cbn [Abrp.callEach]. unfold Host.bind.
  rewrite call_normal. apply IH. now apply call_consistent.
Qed.

(** Every action keeps the subscription variables and the registry in
    agreement. *)
Lemma step_consistent (env : Abrp.Env) (a : Abrp.Action) (w : Abrp.State) :
  consistent w -> consistent (Host.exec (Abrp.step env a) w).
Proof.
  intros Hc. destruct a as [[ | ] | | | enable | t | [statusCode | error]]; cbn [Abrp.step Abrp.complete].
  - now apply startRoute_consistent.
  - now apply endRoute_consistent.
  - now apply sendTelemetry_consistent.
  - destruct (info_frame env w) as [Hb [Hon [Hoff Htick]]].
    revert Hc. now apply consistent_frame.
  - now apply autoSend_consistent.
  - now apply callEach_consistent.
  - unfold Host.exec. destruct (requestDone_run statusCode w) as [evs ->].
    revert Hc. now apply consistent_frame.
  - unfold Host.exec. rewrite requestFail_run.
    revert Hc. now apply consistent_frame.
Qed.

Lemma loaded_consistent : consistent Abrp.loaded.
Proof.
  unfold consistent, fresh, bound. cbn. repeat split; constructor.
Qed.

Lemma run_consistent (history : list (Abrp.Env * Abrp.Action)) (w : Abrp.State) :
  consistent w -> consistent (Abrp.run history w).
Proof.
  revert w. induction history as [| [env a] rest IH]; intros w Hc; [exact Hc | ].
  cbn [Abrp.run]. apply IH. now apply step_consistent.
Qed.

(** In [sendlivedata2abrp.js], whatever happened since the script was
    loaded, at most one subscription to the ticker is live, and it is the
    one [tickerSubscription] holds. *)
Lemma Abrp_at_most_one_ticker_subscription (history : list (Abrp.Env * Abrp.Action)) :
  let w := Abrp.run history Abrp.loaded in
  (length (Host.live Host.Ticker (Host.bus w)) <= 1)%nat /\
  bound Host.Ticker Abrp.onTicker (Abrp.tickerSubscription (Host.vars w)) (Host.bus w).
Proof.
  intros w.
  destruct (run_consistent history Abrp.loaded loaded_consistent) as [_ [_ [_ Hb]]].
  fold w in Hb. split; [ | exact Hb].
  rewrite Hb. destruct (Abrp.tickerSubscription (Host.vars w)); cbn; lia.
Qed.

(** In [sendlivedata2abrp.js] a start while the ticker is subscribed leaves
    the registry and the handle as they are. *)
Lemma Abrp_startRoute_reentrant (env : Abrp.Env) (w : Abrp.State) (tok : nat) :
  Abrp.tickerSubscription (Host.vars w) = Some tok ->
  let w' := Host.exec (Abrp.startRoute env) w in
  Host.bus w' = Host.bus w /\ Abrp.tickerSubscription (Host.vars w') = Some tok.
Proof.
  intros Ht w'. subst w'. unfold Host.exec at 1 2. rewrite startRoute_run. cbn [snd].
  destruct (sendTelemetry_frame env true (Host.exec Abrp.unloadConfig w))
    as [_ [Hb [_ [_ Htick]]]].
  set (w1 := Host.exec (Abrp.sendTelemetry env true) (Host.exec Abrp.unloadConfig w)) in *.
  assert (Ht1 : Abrp.tickerSubscription (Host.vars w1) = Some tok).
  { rewrite Htick. destruct w as [[on off tick cur cfg] b o]. exact Ht. }
  rewrite Ht1. cbn. rewrite Hb, Ht1. destruct w as [v b o]. now split.
Qed.

(* ===================================================================== *)
(** ** Claims on the route session and the auto trigger *)
(* ===================================================================== *)

(** What [startRoute] does to the registry and the ticker handle: it
    subscribes only when the handle is [null]. *)
Lemma startRoute_effect (env : Abrp.Env) (w : Abrp.State) :
  let w' := Host.exec (Abrp.startRoute env) w in
  match Abrp.tickerSubscription (Host.vars w) with
  | None =>
      Host.bus w' = snd (Host.subscribe Host.Ticker Abrp.onTicker (Host.bus w)) /\
      Abrp.tickerSubscription (Host.vars w') = Some (Host.nextUid (Host.bus w))
  | Some tok =>
      Host.bus w' = Host.bus w /\
      Abrp.tickerSubscription (Host.vars w') = Some tok
  end.
Proof.
  intros w'. subst w'. unfold Host.exec at 1 2 3 4. rewrite startRoute_run. cbn [snd].
  destruct (sendTelemetry_frame env true (Host.exec Abrp.unloadConfig w))
    as [_ [Hb [_ [_ Htick]]]].
  set (w1 := Host.exec (Abrp.sendTelemetry env true) (Host.exec Abrp.unloadConfig w)) in *.
  replace (Abrp.tickerSubscription (Host.vars (Host.exec Abrp.unloadConfig w)))
    with (Abrp.tickerSubscription (Host.vars w)) in Htick
    by (destruct w as [[on off tick cur cfg] b o]; reflexivity).
  replace (Host.bus (Host.exec Abrp.unloadConfig w)) with (Host.bus w) in Hb
    by (destruct w as [v b o]; reflexivity).
  rewrite <- Hb, <- Htick.
  destruct (Abrp.tickerSubscription (Host.vars w1)) eqn:E; cbn; rewrite ?E; auto.
Qed.

(** What [endRoute] does: it clears the three session variables and
    unsubscribes the handle it held. *)
Lemma endRoute_effect (w : Abrp.State) :
  let w' := Host.exec Abrp.endRoute w in
  Abrp.currentTelemetry (Host.vars w') = None /\
  Abrp.configuration (Host.vars w') = None /\
  Abrp.tickerSubscription (Host.vars w') = None /\
  Host.bus w'
  = match Abrp.tickerSubscription (Host.vars w) with
    | Some tok => Host.unsubscribe tok (Host.bus w)
    | None => Host.bus w
    end.
Proof.
  intros w'. subst w'. unfold Host.exec. rewrite endRoute_run. cbn [snd].
  destruct w as [[on off [tok | ] cur cfg] b o]; cbn; auto.
Qed.

(** [startRoute] of [abrp2.js] subscribes whatever the handle holds. *)
Lemma Abrp2_startRoute_subscribes (w : Abrp2.State) :
  Host.bus (Host.exec Abrp2.startRoute w)
  = snd (Host.subscribe Host.Ticker Abrp2.onTicker (Host.bus w)) /\
  Abrp2.tickerSubscription (Host.vars (Host.exec Abrp2.startRoute w))
  = Some (Host.nextUid (Host.bus w)).
Proof. destruct w as [v b o]. split; reflexivity. Qed.

(** C5.  The claim fails on [abrp2.js]: its [startRoute] subscribes to the
    ticker on every call.  Each start adds a live ticker subscription; two
    starts after loading leave two, of which [tickerSubscription] holds
    only the second, so that [endRoute] leaves the first one live.  (For
    [sendlivedata2abrp.js] the claim holds, see
    [Abrp_at_most_one_ticker_subscription] and [Abrp_startRoute_reentrant].) *)
Theorem C5_abrp2_startRoute_duplicates_ticker_subscription :
  (forall w : Abrp2.State,
      length (Host.live Host.Ticker (Host.bus (Host.exec Abrp2.startRoute w)))
      = S (length (Host.live Host.Ticker (Host.bus w)))) /\
  let w2 := Host.exec Abrp2.startRoute (Host.exec Abrp2.startRoute Abrp2.loaded) in
  Host.live Host.Ticker (Host.bus w2)
  = [Host.mkSubscription 0 Host.Ticker Abrp2.onTicker;
     Host.mkSubscription 1 Host.Ticker Abrp2.onTicker] /\
  Abrp2.tickerSubscription (Host.vars w2) = Some 1 /\
  Host.live Host.Ticker (Host.bus (Host.exec Abrp2.endRoute w2))
  = [Host.mkSubscription 0 Host.Ticker Abrp2.onTicker] /\
  Abrp2.tickerSubscription (Host.vars (Host.exec Abrp2.endRoute w2)) = None.
Proof.
  split; [ | repeat split; reflexivity].
  intros w. destruct (Abrp2_startRoute_subscribes w) as [-> _].
  rewrite live_subscribe_same, length_app. cbn. lia.
Qed.

(** C6.  From an idle session (no ticker handle, no live ticker
    subscription), [startRoute] followed by [endRoute] leaves no live
    ticker subscription, a [null] ticker handle and a [null] current
    telemetry, whatever the host answered during the start. *)
Theorem C6_start_then_end_leaves_idle (env : Abrp.Env) (w : Abrp.State) :
  Abrp.tickerSubscription (Host.vars w) = None ->
  Host.live Host.Ticker (Host.bus w) = [] ->
  let w' := Host.exec Abrp.endRoute (Host.exec (Abrp.startRoute env) w) in
  Host.live Host.Ticker (Host.bus w') = [] /\
  Abrp.tickerSubscription (Host.vars w') = None /\
  Abrp.currentTelemetry (Host.vars w') = None.
Proof.
  intros Hnone Hlive w'. subst w'.
  assert (Hs := startRoute_effect env w). rewrite Hnone in Hs. cbn zeta in Hs.
  destruct Hs as [Hb Ht].
  destruct (endRoute_effect (Host.exec (Abrp.startRoute env) w))
    as [Hcur [_ [Htick Hbus]]].
  rewrite Ht, Hb in Hbus.
  repeat split; [ | exact Htick | exact Hcur].
  rewrite Hbus, live_unsubscribe, live_subscribe_same, Hlive. cbn.
  now rewrite Nat.eqb_refl.
Qed.

Lemma C6_witness :
  let w' := Host.exec Abrp.endRoute
              (Host.exec (Abrp.startRoute (Samples.env_of Samples.driving)) Abrp.loaded) in
  Host.live Host.Ticker (Host.bus w') = [] /\
  Abrp.tickerSubscription (Host.vars w') = None /\
  Abrp.currentTelemetry (Host.vars w') = None.
Proof.
  apply (C6_start_then_end_leaves_idle (Samples.env_of Samples.driving) Abrp.loaded);
    reflexivity.
Defined.

Lemma Slack_enable_run (w : Slack.State) :
  exists o',
    Slack.enableSendBetweenVehicleOnAndOff w
    = (Host.Normal tt,
       let w1 :=
         match Slack.vehicleOnSubscription (Host.vars w) with
         | None =>
             Host.mkWorld
               (Slack.set_vehicleOnSubscription (Some (Host.nextUid (Host.bus w)))
                                                (Host.vars w))
               (snd (Host.subscribe Host.VehicleOn Slack.vehicleOn (Host.bus w)))
               (Host.out w)
         | Some _ => w
         end in
       match Slack.vehicleOffSubscription (Host.vars w1) with
       | None =>
           Host.mkWorld
             (Slack.set_vehicleOffSubscription (Some (Host.nextUid (Host.bus w1)))
                                               (Host.vars w1))
             (snd (Host.subscribe Host.VehicleOff Slack.vehicleOff (Host.bus w1)))
             o'
       | Some _ => Host.mkWorld (Host.vars w1) (Host.bus w1) o'
       end).
Proof.
  destruct w as [[[on | ] [off | ] tick] b o]; cbn; eexists; reflexivity.
Qed.

(** Rewrites the live subscriptions of a registry after subscriptions. *)
Ltac live_after_subscribe :=
  repeat (rewrite live_subscribe_same
          || rewrite live_subscribe_other by discriminate).

(** C7.  Enabling the auto trigger twice in a row, in
    [sendlivedata2abrp.js] ([autoSend(1)]) and in [slack.js]
    ([enableSendBetweenVehicleOnAndOff]), from a state whose two handles
    describe the registry: the second call changes neither the variables
    nor the registry, and exactly one vehicle-on and one vehicle-off
    subscription are live. *)
Theorem C7_enable_twice_subscribes_once (w : Abrp.State) (s : Slack.State) :
  bound Host.VehicleOn Abrp.onVehicleOn
        (Abrp.vehicleOnSubscription (Host.vars w)) (Host.bus w) ->
  bound Host.VehicleOff Abrp.onVehicleOff
        (Abrp.vehicleOffSubscription (Host.vars w)) (Host.bus w) ->
  bound Host.VehicleOn Slack.vehicleOn
        (Slack.vehicleOnSubscription (Host.vars s)) (Host.bus s) ->
  bound Host.VehicleOff Slack.vehicleOff
        (Slack.vehicleOffSubscription (Host.vars s)) (Host.bus s) ->
  let w1 := Host.exec (Abrp.autoSend true) w in
  let w2 := Host.exec (Abrp.autoSend true) w1 in
  let s1 := Host.exec Slack.enableSendBetweenVehicleOnAndOff s in
  let s2 := Host.exec Slack.enableSendBetweenVehicleOnAndOff s1 in
  (Host.vars w2 = Host.vars w1 /\ Host.bus w2 = Host.bus w1 /\
   length (Host.live Host.VehicleOn (Host.bus w2)) = 1%nat /\
   length (Host.live Host.VehicleOff (Host.bus w2)) = 1%nat) /\
  (Host.vars s2 = Host.vars s1 /\ Host.bus s2 = Host.bus s1 /\
   length (Host.live Host.VehicleOn (Host.bus s2)) = 1%nat /\
   length (Host.live Host.VehicleOff (Host.bus s2)) = 1%nat).
Proof.
  intros Hon Hoff Son Soff w1 w2 s1 s2. subst w2 w1 s2 s1. unfold Host.exec. split.
  - destruct (autoSend_run true w) as [o1 ->]. cbn [snd].
    match goal with
    | |- context [Abrp.autoSend true ?x] => destruct (autoSend_run true x) as [o2 ->]
    end.
    cbn [snd].
    destruct w as [[[on | ] [off | ] tick cur cfg] b o]; unfold bound in *; cbn in *;
      live_after_subscribe; rewrite ?Hon, ?Hoff; auto.
  - destruct (Slack_enable_run s) as [o1 ->]. cbn [snd].
    match goal with
    | |- context [Slack.enableSendBetweenVehicleOnAndOff ?x] =>
        destruct (Slack_enable_run x) as [o2 ->]
    end.
    cbn [snd].
    destruct s as [[[on | ] [off | ] tick] b o]; unfold bound in *; cbn in *;
      live_after_subscribe; rewrite ?Son, ?Soff; auto.
Qed.

Lemma C7_witness :
  let w1 := Host.exec (Abrp.autoSend true) Abrp.loaded in
  let w2 := Host.exec (Abrp.autoSend true) w1 in
  let s1 := Host.exec Slack.enableSendBetweenVehicleOnAndOff Slack.loaded in
  let s2 := Host.exec Slack.enableSendBetweenVehicleOnAndOff s1 in
  (Host.vars w2 = Host.vars w1 /\ Host.bus w2 = Host.bus w1 /\
   length (Host.live Host.VehicleOn (Host.bus w2)) = 1%nat /\
   length (Host.live Host.VehicleOff (Host.bus w2)) = 1%nat) /\
  (Host.vars s2 = Host.vars s1 /\ Host.bus s2 = Host.bus s1 /\
   length (Host.live Host.VehicleOn (Host.bus s2)) = 1%nat /\
   length (Host.live Host.VehicleOff (Host.bus s2)) = 1%nat).
Proof.
  apply (C7_enable_twice_subscribes_once Abrp.loaded Slack.loaded); reflexivity.
Defined.

(* ===================================================================== *)
(** ** Errors and transport callbacks *)
(* ===================================================================== *)

Lemma handleError_run (error : Host.Exn) (context : string) (w : Abrp.State) :
  Abrp.handleError error context w = (Host.Normal tt, reported context error w).
Proof.
  destruct w as [v b o]. unfold reported. run_script. rewrite <- app_assoc. reflexivity.
Qed.

(** A body wrapped in [try { } catch (error) { handleError(error, context) }]
    is guarded, whatever the body is. *)
Lemma try_handleError_guarded (body : Host.M Abrp.State unit) (context : string) :
  guarded body context
          (Host.try_catch body (fun error => Abrp.handleError error context)).
Proof.
  intros w. unfold Host.try_catch.
  destruct (body w) as [[a | e] w1]; [reflexivity | apply handleError_run].
Qed.

Lemma guarded_returns (body operation : Host.M Abrp.State unit) (context : string) :
  guarded body context operation -> forall w, Host.returns operation w = true.
Proof.
  intros G w. unfold Host.returns. rewrite (G w).
  destruct (body w) as [[a | e] w1]; reflexivity.
Qed.

(** C8.  [sendTelemetry], [startRoute] and [endRoute] are each their body
    inside a [try] whose [catch] calls [handleError]: an exception the body
    raises is caught there, printed, and raised as an error notification on
    [usr.abrp.status], and the operation returns normally; so none of the
    three throws to its caller.  For [sendTelemetry] the exceptions are
    those of the metrics and of [HTTP.Request], on every host; for
    [startRoute] and [endRoute] the registry calls are taken as any
    computations, throwing ones included, and [Abrp.startRoute] and
    [Abrp.endRoute] are the instances at the registry of [Host].  The last
    three parts show, for each operation, a body that does throw, with the
    operation returning and the notification raised. *)
Theorem C8_operations_catch_and_report :
  (forall env force,
      guarded (Abrp.sendTelemetry_body env force) "Send telemetry"
              (Abrp.sendTelemetry env force)) /\
  (forall subscribe env,
      guarded (AbrpOn.startRoute_body subscribe env) "Start route"
              (AbrpOn.startRoute subscribe env)) /\
  (forall unsubscribe,
      guarded (AbrpOn.endRoute_body unsubscribe) "End route"
              (AbrpOn.endRoute unsubscribe)) /\
  (Abrp.startRoute = AbrpOn.startRoute Host.PubSub_subscribe /\
   Abrp.endRoute = AbrpOn.endRoute Host.PubSub_unsubscribe) /\
  (forall env force w, Host.returns (Abrp.sendTelemetry env force) w = true) /\
  (forall subscribe env w, Host.returns (AbrpOn.startRoute subscribe env) w = true) /\
  (forall unsubscribe w, Host.returns (AbrpOn.endRoute unsubscribe) w = true) /\
  (Host.returns (Abrp.sendTelemetry_body Samples.env_metrics_down false) Abrp.loaded = false /\
   errorsRaised
     (Host.out (Host.exec (Abrp.sendTelemetry Samples.env_metrics_down false) Abrp.loaded))
   = ["Send telemetry error  - undefined is not an object"]) /\
  (let env := Samples.env_of Samples.driving in
   Host.returns (AbrpOn.startRoute_body AbrpOn.failingSubscribe env) Abrp.loaded = false /\
   Host.returns (AbrpOn.startRoute AbrpOn.failingSubscribe env) Abrp.loaded = true /\
   errorsRaised
     (Host.out (Host.exec (AbrpOn.startRoute AbrpOn.failingSubscribe env) Abrp.loaded))
   = ["Start route error  - registry unavailable"]) /\
  (Host.returns (AbrpOn.endRoute_body AbrpOn.failingUnsubscribe) routeRunning = false /\
   Host.returns (AbrpOn.endRoute AbrpOn.failingUnsubscribe) routeRunning = true /\
   errorsRaised
     (Host.out (Host.exec (AbrpOn.endRoute AbrpOn.failingUnsubscribe) routeRunning))
   = ["End route error  - registry unavailable"]).
Proof.
  assert (G1 : forall env force,
             guarded (Abrp.sendTelemetry_body env force) "Send telemetry"
                     (Abrp.sendTelemetry env force))
    by (intros; apply try_handleError_guarded).
  assert (G2 : forall subscribe env,
             guarded (AbrpOn.startRoute_body subscribe env) "Start route"
                     (AbrpOn.startRoute subscribe env))
    by (intros; apply try_handleError_guarded).
  assert (G3 : forall unsubscribe,
             guarded (AbrpOn.endRoute_body unsubscribe) "End route"
                     (AbrpOn.endRoute unsubscribe))
    by (intros; apply try_handleError_guarded).
  split; [exact G1 | ]. split; [exact G2 | ]. split; [exact G3 | ].
  split; [split; reflexivity | ].
  split; [intros env force; apply (guarded_returns _ _ _ (G1 env force)) | ].
  split; [intros subscribe env; apply (guarded_returns _ _ _ (G2 subscribe env)) | ].
  split; [intros unsubscribe; apply (guarded_returns _ _ _ (G3 unsubscribe)) | ].
  split; [split; reflexivity | ].
  split; [cbv zeta; repeat split; reflexivity | repeat split; reflexivity].
Qed.

(** C9.  The [fail] callback of a request, run in any state, returns
    normally and changes nothing but the output: the variables (ticker
    handle, memoized configuration and current telemetry among them) and
    the registry are as before, and the output gains the printed error and
    one error notification. *)
Theorem C9_transport_failure_leaves_session_unchanged
  (error : Host.Exn) (w : Abrp.State) :
  let w' := Host.exec (Abrp.requestFail error) w in
  Host.returns (Abrp.requestFail error) w = true /\
  Host.vars w' = Host.vars w /\
  Host.bus w' = Host.bus w /\
  Host.out w'
  = (Host.out w ++ [Host.PrintError "HTTP request" error;
                    Host.Raise Host.Error "usr.abrp.status"
                      ("HTTP request" ++ " error  - " ++ Host.message error)])%list.
Proof.
  unfold Host.exec, Host.returns. rewrite requestFail_run. cbn. auto.
Qed.

(** Neither transport callback touches a variable or the registry. *)
Lemma requestDone_frame (statusCode : Z) (w : Abrp.State) :
  Host.vars (Host.exec (Abrp.requestDone statusCode) w) = Host.vars w /\
  Host.bus (Host.exec (Abrp.requestDone statusCode) w) = Host.bus w /\
  requests (Host.out (Host.exec (Abrp.requestDone statusCode) w)) = requests (Host.out w).
Proof.
  unfold Host.exec, Abrp.requestDone. destruct (Z.eqb statusCode 200).
  - destruct w; cbn; auto.
  - rewrite handleError_run. cbn. rewrite requests_app. cbn. rewrite app_nil_r. auto.
Qed.

Lemma requestFail_frame (error : Host.Exn) (w : Abrp.State) :
  Host.vars (Host.exec (Abrp.requestFail error) w) = Host.vars w /\
  Host.bus (Host.exec (Abrp.requestFail error) w) = Host.bus w /\
  requests (Host.out (Host.exec (Abrp.requestFail error) w)) = requests (Host.out w).
Proof.
  unfold Host.exec. rewrite requestFail_run. cbn. rewrite requests_app. cbn.
  rewrite app_nil_r. auto.
Qed.

Lemma complete_frame (c : Abrp.Completion) (w : Abrp.State) :
  Host.vars (Host.exec (Abrp.complete c) w) = Host.vars w /\
  Host.bus (Host.exec (Abrp.complete c) w) = Host.bus w /\
  requests (Host.out (Host.exec (Abrp.complete c) w)) = requests (Host.out w).
Proof.
  destruct c; [apply requestDone_frame | apply requestFail_frame].
Qed.

(** Every sample is one that [getTelemetry] can return, when no
    configuration is memoized. *)
Lemma every_sample_is_readable (s : Telemetry) (w : Abrp.State) :
  Abrp.configuration (Host.vars w) = None ->
  exists env r,
    Abrp.metrics env = inr r /\ Abrp.telemetryOf env (configOf env w) r = s.
Proof.
  intros Hc.
  exists (Abrp.mkEnv (mkConfigValues None (Some (car_model s)) None)
                     (inr (Samples.reading_of s)) (utc s) None),
         (Samples.reading_of s).
  split; [reflexivity | ].
  unfold configOf. rewrite Hc. destruct s as [? ? ? ? ? ? ? ? ? [ | ] ? ? ? ?]; reflexivity.
Qed.

(** When the gate accepts, [sendTelemetry] is [updateAbrp] run from a state
    in which the sample is already the current telemetry and no request
    has been added. *)
Lemma sendTelemetry_commits_first
  (env : Abrp.Env) (force : bool) (w : Abrp.State) (r : Abrp.Reading) :
  Abrp.metrics env = inr r ->
  let s := Abrp.telemetryOf env (configOf env w) r in
  shouldSend (Abrp.currentTelemetry (Host.vars w)) s force = true ->
  exists wc,
    Abrp.currentTelemetry (Host.vars wc) = Some s /\
    requests (Host.out wc) = requests (Host.out w) /\
    Abrp.sendTelemetry env force w
    = Host.try_catch (Abrp.updateAbrp env s)
                     (fun error => Abrp.handleError error "Send telemetry") wc.
Proof.
  intros Hm s Hgo.
  exists (Host.exec (Host.assign (Abrp.set_currentTelemetry (Some s)))
            (snd (Abrp.sendCondition force s (snd (Abrp.getTelemetry env w))))).
  subst s. revert Hgo.
  destruct env as [cv m clk re]; cbn in Hm; subst m.
  destruct w as [[on off tick cur cfg] b o].
  destruct cfg as [cfg | ], cur as [prev | ], force, re as [e | ];
    cbn [shouldSend orb Host.vars Abrp.currentTelemetry]; intros Hgo;
    run_script;
    repeat match goal with
      | H : context [telemetryInvalid ?x] |- _ =>
          destruct (telemetryInvalid x); cbn in H |- *; try discriminate H
      | H : telemetryChanged ?x ?y = true |- _ => rewrite H; cbn
      end;
    rewrite ?requests_app; cbn; rewrite ?app_nil_r; auto.
Qed.

(** C10 (as amended).  When the gate accepts a sample, the sample is the
    current telemetry before [HTTP.Request] is called (the cycle is
    [updateAbrp] run from a state that already holds it), it is the current
    telemetry when the cycle ends, also when the request throws, and
    neither the [done] nor the [fail] callback changes it.  So after the
    request has ended, in failure or not, a tick whose sample agrees with
    that one on the eight watched fields, none of them [NaN], makes no
    request. *)
Theorem C10_commit_precedes_request_and_survives_failure
  (env env' : Abrp.Env) (force : bool) (w : Abrp.State) (r r' : Abrp.Reading)
  (c : Abrp.Completion) :
  Abrp.metrics env = inr r ->
  let s := Abrp.telemetryOf env (configOf env w) r in
  fst (Abrp.sendCondition force s w) = Host.Normal true ->
  let w1 := Host.exec (Abrp.sendTelemetry env force) w in
  let w2 := Host.exec (Abrp.complete c) w1 in
  Abrp.metrics env' = inr r' ->
  let s' := Abrp.telemetryOf env' (configOf env' w2) r' in
  (forall i, In i telemetryChangedIndicators -> field s' i = field s i) ->
  noNaN s' ->
  let w3 := Host.exec (Abrp.sendTelemetry env' false) w2 in
  (exists wc,
      Abrp.currentTelemetry (Host.vars wc) = Some s /\
      requests (Host.out wc) = requests (Host.out w) /\
      Abrp.sendTelemetry env force w
      = Host.try_catch (Abrp.updateAbrp env s)
                       (fun error => Abrp.handleError error "Send telemetry") wc) /\
  Abrp.currentTelemetry (Host.vars w1) = Some s /\
  Abrp.currentTelemetry (Host.vars w2) = Some s /\
  requests (Host.out w3) = requests (Host.out w2) /\
  Abrp.currentTelemetry (Host.vars w3) = Some s.
Proof.
  intros Hm s Hgo w1 w2 Hm' s' Hsame HN w3.
  rewrite sendCondition_shouldSend in Hgo. injection Hgo as Hgo.
  assert (H1 : Abrp.currentTelemetry (Host.vars w1) = Some s).
  { destruct (sendTelemetry_run env force w r Hm) as [Hg _].
    fold s in Hg. rewrite Hgo in Hg. apply Hg. }
  assert (H2 : Abrp.currentTelemetry (Host.vars w2) = Some s).
  { unfold w2. destruct (complete_frame c w1) as [-> _]. exact H1. }
  assert (Hrej : shouldSend (Abrp.currentTelemetry (Host.vars w2)) s' false = false).
  { rewrite H2. cbn. apply andb_false_intro2. apply not_true_is_false.
    rewrite (telemetryChanged_noNaN s s' HN).
    intros [i [Hin Hd]]. apply Hd. symmetry. now apply Hsame. }
  destruct (sendTelemetry_run env' false w2 r' Hm') as [Hg _].
  fold s' in Hg. rewrite Hrej in Hg. fold w3 in Hg. destruct Hg as [Hcur Hreq].
  repeat split.
  - now apply sendTelemetry_commits_first.
  - exact H1.
  - exact H2.
  - exact Hreq.
  - now rewrite Hcur.
Qed.

Lemma C10_witness :
  let env := Samples.env_http_down Samples.driving in
  let w := Samples.after None in
  let s := Samples.driving in
  let w1 := Host.exec (Abrp.sendTelemetry env false) w in
  let w2 := Host.exec (Abrp.complete (Abrp.Failed (Host.mkError "timeout"))) w1 in
  let w3 := Host.exec (Abrp.sendTelemetry (Samples.env_of Samples.driving_later) false) w2 in
  Abrp.currentTelemetry (Host.vars w1) = Some s /\
  Abrp.currentTelemetry (Host.vars w2) = Some s /\
  requests (Host.out w3) = requests (Host.out w2) /\
  Abrp.currentTelemetry (Host.vars w3) = Some s.
Proof.
  destruct (C10_commit_precedes_request_and_survives_failure
              (Samples.env_http_down Samples.driving)
              (Samples.env_of Samples.driving_later) false (Samples.after None)
              (Samples.reading_of Samples.driving)
              (Samples.reading_of Samples.driving_later)
              (Abrp.Failed (Host.mkError "timeout")) eq_refl eq_refl eq_refl)
    as [_ [H1 [H2 [H3 H4]]]].
  - intros i _. destruct i; reflexivity.
  - reflexivity.
  - repeat split; assumption.
Defined.

(** C10 as stated fails: after a failed send of a sample whose battery
    temperature is [NaN], the next tick reads the very same values and
    requests them again. *)
Lemma C10_counterexample :
  let env := Samples.env_of Samples.no_batt_temp in
  let w1 := Host.exec (Abrp.sendTelemetry env false) (Samples.after None) in
  let w2 := Host.exec (Abrp.complete (Abrp.Failed (Host.mkError "timeout"))) w1 in
  let w3 := Host.exec (Abrp.sendTelemetry env false) w2 in
  Abrp.currentTelemetry (Host.vars w2) = Some Samples.no_batt_temp /\
  (forall i, In i telemetryChangedIndicators ->
             field (Abrp.telemetryOf env (configOf env w2)
                      (Samples.reading_of Samples.no_batt_temp)) i
             = field Samples.no_batt_temp i) /\
  length (requests (Host.out w2)) = 1%nat /\
  requests (Host.out w3)
  = [urlOf (configOf env w2) Samples.no_batt_temp;
     urlOf (configOf env w2) Samples.no_batt_temp].
Proof.
  repeat split; reflexivity.
Qed.

(* ===================================================================== *)
(** ** sendlivedata2abrp.js: configuration, start, failures *)
(* ===================================================================== *)

(** A cycle ends with the configuration in force memoized, also when the
    metrics cannot be read. *)
Lemma sendTelemetry_configuration (env : Abrp.Env) (force : bool) (w : Abrp.State) :
  Abrp.configuration (Host.vars (Host.exec (Abrp.sendTelemetry env force) w))
  = Some (configOf env w).
Proof.
  destruct env as [cv [e | r] clk re];
  destruct w as [[on off tick cur cfg] b o];
  destruct cfg as [cfg | ], cur as [prev | ], force, re as [e' | ];
    run_script;
    repeat match goal with
      | |- context [telemetryInvalid ?x] => destruct (telemetryInvalid x); cbn
      | |- context [if telemetryChanged ?x ?y then _ else _] =>
          destruct (telemetryChanged x y); cbn
      end;
    reflexivity.
Qed.

(** X1.  While a configuration is memoized, what is in the configuration
    store has no effect on a sample-and-send cycle: the cycle run against
    any other stored values ends in the same state, and the memoized
    configuration stays. *)
Theorem X1_memoized_configuration_hides_the_store
  (values : ConfigValues) (env : Abrp.Env) (force : bool) (w : Abrp.State) (c : Config) :
  Abrp.configuration (Host.vars w) = Some c ->
  Abrp.sendTelemetry (withStored values env) force w = Abrp.sendTelemetry env force w /\
  Abrp.configuration (Host.vars (Host.exec (Abrp.sendTelemetry env force) w)) = Some c.
Proof.
  intros Hc. split.
  - destruct env as [cv [e | r] clk re];
    destruct w as [[on off tick cur cfg] b o]; cbn in Hc; subst cfg;
    destruct cur as [prev | ], force, re as [e' | ];
      unfold withStored; run_script; unfold Abrp.telemetryOf; cbn;
      repeat match goal with
        | |- context [telemetryInvalid ?x] => destruct (telemetryInvalid x); cbn
        | |- context [if telemetryChanged ?x ?y then _ else _] =>
            destruct (telemetryChanged x y); cbn
        end;
      reflexivity.
  - rewrite sendTelemetry_configuration. unfold configOf. now rewrite Hc.
Qed.

Lemma X1_witness :
  let w := Host.mkWorld
             (Abrp.mkVars None None (Some 0%nat) (Some Samples.driving)
                          (Some Abrp.defaultConfiguration))
             (Host.mkPubSub [Host.mkSubscription 0 Host.Ticker Abrp.onTicker] 1) [] in
  let env := Samples.env_of Samples.dropout in
  Abrp.sendTelemetry (withStored (mkConfigValues (Some "http://example.org") None None) env)
                     false w
  = Abrp.sendTelemetry env false w /\
  Abrp.configuration (Host.vars (Host.exec (Abrp.sendTelemetry env false) w))
  = Some Abrp.defaultConfiguration.
Proof.
  apply (X1_memoized_configuration_hides_the_store
           (mkConfigValues (Some "http://example.org") None None)
           (Samples.env_of Samples.dropout) false _ Abrp.defaultConfiguration).
  reflexivity.
Defined.

(** X2.  [startRoute] always ends with the configuration read anew from
    the store (each stored key, the default for a missing one), whatever
    was memoized before and also when the metrics cannot be read or the
    request throws. *)
Theorem X2_startRoute_reloads_configuration (env : Abrp.Env) (w : Abrp.State) :
  Abrp.configuration (Host.vars (Host.exec (Abrp.startRoute env) w))
  = Some (assignedConfig (Abrp.config_values env)).
Proof.
  unfold Host.exec at 1. rewrite startRoute_run. cbn [snd].
  assert (Hc := sendTelemetry_configuration env true (Host.exec Abrp.unloadConfig w)).
  set (w1 := Host.exec (Abrp.sendTelemetry env true) (Host.exec Abrp.unloadConfig w)) in *.
  replace (configOf env (Host.exec Abrp.unloadConfig w))
    with (assignedConfig (Abrp.config_values env)) in Hc
    by (destruct w as [[on off tick cur cfg] b o]; reflexivity).
  clearbody w1. destruct w1 as [[on off [tok | ] cur cfg] b o]; exact Hc.
Qed.

(** X3.  When the metrics can be read, [startRoute] sends at once:
    exactly one request is added, for the sample just read under the
    configuration just loaded; that sample becomes the current telemetry,
    whatever it was before; the ticker handle is set; and the last output
    is the notification that the route started. *)
Theorem X3_startRoute_sends_at_once (env : Abrp.Env) (w : Abrp.State) (r : Abrp.Reading) :
  Abrp.metrics env = inr r ->
  let c := assignedConfig (Abrp.config_values env) in
  let s := Abrp.telemetryOf env c r in
  let w' := Host.exec (Abrp.startRoute env) w in
  Abrp.currentTelemetry (Host.vars w') = Some s /\
  requests (Host.out w') = (requests (Host.out w) ++ [urlOf c s])%list /\
  Abrp.tickerSubscription (Host.vars w') <> None /\
  exists before,
    Host.out w'
    = (before ++ [Host.Print ("Starting route - subscribed to ticker" ++ Host.nl);
                  Host.Raise Host.Info "usr.abrp.status" "ABRP route started"])%list.
Proof.
  intros Hm c s w'. subst w'. unfold Host.exec at 1 2 3 4. rewrite startRoute_run.
  cbn [snd].
  destruct (sendTelemetry_run env true (Host.exec Abrp.unloadConfig w) r Hm)
    as [Hg [_ _]].
  replace (configOf env (Host.exec Abrp.unloadConfig w)) with c in Hg
    by (destruct w as [[on off tick cur cfg] b o]; reflexivity).
  fold s in Hg.
  replace (shouldSend
             (Abrp.currentTelemetry (Host.vars (Host.exec Abrp.unloadConfig w))) s true)
    with true in Hg
    by (unfold shouldSend;
        destruct (Abrp.currentTelemetry (Host.vars (Host.exec Abrp.unloadConfig w)));
        reflexivity).
  replace (requests (Host.out (Host.exec Abrp.unloadConfig w)))
    with (requests (Host.out w)) in Hg
    by (destruct w as [v b o]; reflexivity).
  set (w1 := Host.exec (Abrp.sendTelemetry env true) (Host.exec Abrp.unloadConfig w)) in *.
  destruct Hg as [Hcur Hreq].
  clearbody w1. destruct w1 as [[on off [tok | ] cur cfg] b o]; cbn in *;
    rewrite requests_app; cbn; rewrite app_nil_r;
    (repeat split; [exact Hcur | exact Hreq | discriminate | eexists; reflexivity]).
Qed.

Lemma X3_witness :
  let env := Samples.env_of Samples.driving in
  let c := assignedConfig (Abrp.config_values env) in
  let w' := Host.exec (Abrp.startRoute env) Abrp.loaded in
  Abrp.currentTelemetry (Host.vars w') = Some Samples.driving /\
  requests (Host.out w') = [urlOf c Samples.driving] /\
  Abrp.tickerSubscription (Host.vars w') <> None /\
  exists before,
    Host.out w'
    = (before ++ [Host.Print ("Starting route - subscribed to ticker" ++ Host.nl);
                  Host.Raise Host.Info "usr.abrp.status" "ABRP route started"])%list.
Proof.
  apply (X3_startRoute_sends_at_once (Samples.env_of Samples.driving) Abrp.loaded
           (Samples.reading_of Samples.driving)).
  reflexivity.
Defined.

(** X4.  When reading the metrics throws, a cycle, forced or not, makes no
    request and leaves the current telemetry, the registry and the ticker
    handle as they were; it raises one error notification, whose text is
    the context [Send telemetry] followed by the message of the error, and
    it returns normally. *)
Theorem X4_unreadable_metrics_are_reported_not_sent
  (env : Abrp.Env) (force : bool) (w : Abrp.State) (e : Host.Exn) :
  Abrp.metrics env = inl e ->
  let w' := Host.exec (Abrp.sendTelemetry env force) w in
  Host.returns (Abrp.sendTelemetry env force) w = true /\
  requests (Host.out w') = requests (Host.out w) /\
  Abrp.currentTelemetry (Host.vars w') = Abrp.currentTelemetry (Host.vars w) /\
  Host.bus w' = Host.bus w /\
  Abrp.tickerSubscription (Host.vars w') = Abrp.tickerSubscription (Host.vars w) /\
  errorsRaised (Host.out w')
  = (errorsRaised (Host.out w)
       ++ [("Send telemetry" ++ " error  - " ++ Host.message e)%string])%list.
Proof.
  intros Hm.
  destruct env as [cv m clk re]; cbn in Hm; subst m.
  destruct w as [[on off tick cur [cfg | ]] b o];
    run_script; rewrite ?requests_app, ?errorsRaised_app; cbn;
    rewrite ?app_nil_r; repeat split; reflexivity.
Qed.

Lemma X4_witness :
  let w := Samples.after (Some Samples.driving) in
  let w' := Host.exec (Abrp.sendTelemetry Samples.env_metrics_down true) w in
  Host.returns (Abrp.sendTelemetry Samples.env_metrics_down true) w = true /\
  requests (Host.out w') = requests (Host.out w) /\
  Abrp.currentTelemetry (Host.vars w') = Abrp.currentTelemetry (Host.vars w) /\
  Host.bus w' = Host.bus w /\
  Abrp.tickerSubscription (Host.vars w') = Abrp.tickerSubscription (Host.vars w) /\
  errorsRaised (Host.out w')
  = (errorsRaised (Host.out w)
       ++ [("Send telemetry" ++ " error  - " ++ "undefined is not an object")%string])%list.
Proof.
  apply (X4_unreadable_metrics_are_reported_not_sent
           Samples.env_metrics_down true (Samples.after (Some Samples.driving))
           (Host.mkError "undefined is not an object")).
  reflexivity.
Defined.

(* ===================================================================== *)
(** ** sendlivedata2abrp.js: the done callback, route end, trigger off *)
(* ===================================================================== *)

(** X5.  The [done] callback of a request returns normally and touches no
    variable and no subscription.  On status 200 it outputs nothing; on any
    other status it prints the error and raises one error notification
    whose text carries the status code. *)
Theorem X5_done_reports_every_status_but_200 (statusCode : Z) (w : Abrp.State) :
  let w' := Host.exec (Abrp.requestDone statusCode) w in
  let error :=
    Host.mkError ("Unexpected status code [" ++ Host.string_of_Z statusCode ++ "]") in
  Host.returns (Abrp.requestDone statusCode) w = true /\
  Host.vars w' = Host.vars w /\
  Host.bus w' = Host.bus w /\
  Host.out w'
  = (Host.out w
       ++ if Z.eqb statusCode 200 then []
          else [Host.PrintError "Http request" error;
                Host.Raise Host.Error "usr.abrp.status"
                  ("Http request" ++ " error  - " ++ Host.message error)])%list.
Proof.
  unfold Host.exec, Host.returns, Abrp.requestDone.
  destruct (Z.eqb statusCode 200).
  - destruct w as [v b o]. cbn. rewrite app_nil_r. auto.
  - rewrite handleError_run. cbn. auto.
Qed.

(** X6.  [endRoute] ends the session from any state: current telemetry,
    memoized configuration and ticker handle are [null] afterwards, and
    when the handle described the registry no ticker subscription is
    live.  A second [endRoute] changes no variable and no subscription. *)
Theorem X6_endRoute_resets_and_is_idempotent (w : Abrp.State) :
  bound Host.Ticker Abrp.onTicker (Abrp.tickerSubscription (Host.vars w)) (Host.bus w) ->
  let w1 := Host.exec Abrp.endRoute w in
  let w2 := Host.exec Abrp.endRoute w1 in
  Abrp.currentTelemetry (Host.vars w1) = None /\
  Abrp.configuration (Host.vars w1) = None /\
  Abrp.tickerSubscription (Host.vars w1) = None /\
  Host.live Host.Ticker (Host.bus w1) = [] /\
  Host.vars w2 = Host.vars w1 /\
  Host.bus w2 = Host.bus w1.
Proof.
  intros Hb w1 w2.
  destruct (endRoute_effect w) as [Hcur [Hcfg [Htick Hbus]]]. fold w1 in Hcur, Hcfg, Htick, Hbus.
  destruct (endRoute_effect w1) as [_ [_ [_ Hbus2]]]. fold w2 in Hbus2.
  rewrite Htick in Hbus2.
  repeat split; try assumption.
  - rewrite Hbus. unfold bound in Hb.
    destruct (Abrp.tickerSubscription (Host.vars w)) as [tok | ]; [ | exact Hb].
    rewrite live_unsubscribe, Hb. cbn. now rewrite Nat.eqb_refl.
  - subst w2. unfold Host.exec at 1. rewrite endRoute_run. cbn [snd].
    rewrite Htick. cbn.
    destruct (Host.vars w1) as [on off tick cur cfg]. cbn in *. now subst.
Qed.

Lemma X6_witness :
  let w := Host.exec (Abrp.startRoute (Samples.env_of Samples.driving)) Abrp.loaded in
  let w1 := Host.exec Abrp.endRoute w in
  let w2 := Host.exec Abrp.endRoute w1 in
  Abrp.currentTelemetry (Host.vars w1) = None /\
  Abrp.configuration (Host.vars w1) = None /\
  Abrp.tickerSubscription (Host.vars w1) = None /\
  Host.live Host.Ticker (Host.bus w1) = [] /\
  Host.vars w2 = Host.vars w1 /\
  Host.bus w2 = Host.bus w1.
Proof.
  apply (X6_endRoute_resets_and_is_idempotent
           (Host.exec (Abrp.startRoute (Samples.env_of Samples.driving)) Abrp.loaded)).
  reflexivity.
Defined.

(** Unsubscribing the token of one topic leaves the live subscriptions of
    another topic as they are, in a registry with distinct tokens. *)
Lemma live_unsubscribe_other {C : Type} (t t' : Host.Topic) (f : C) (tok : nat)
  (r : Host.PubSub C) :
  fresh r -> t <> t' -> bound t f (Some tok) r ->
  Host.live t' (Host.unsubscribe tok r) = Host.live t' r.
Proof.
  intros [Hnd _] Hne Hb. rewrite live_unsubscribe.
  apply forallb_filter_id. apply forallb_forall. intros s Hs.
  apply negb_true_iff. apply Nat.eqb_neq. intros E.
  assert (Ha : In (Host.mkSubscription tok t f) (Host.live t r))
    by (unfold bound in Hb; rewrite Hb; now left).
  apply In_live in Ha, Hs. destruct Ha as [Ha _], Hs as [Hs Ht'].
  assert (Es := NoDup_map_In_inj Host.sub_token _ _ _ Hnd Hs Ha E).
  subst s. cbn in Ht'. congruence.
Qed.

(** The registry after unsubscribing the vehicle-on and the vehicle-off
    handle, each when it is set. *)
Lemma unsubscribe_both {C : Type} (fOn fOff : C) (on off : option nat)
  (r : Host.PubSub C) :
  fresh r ->
  bound Host.VehicleOn fOn on r ->
  bound Host.VehicleOff fOff off r ->
  let r1 := match on with Some tok => Host.unsubscribe tok r | None => r end in
  let r2 := match off with Some tok => Host.unsubscribe tok r1 | None => r1 end in
  Host.live Host.VehicleOn r2 = [] /\
  Host.live Host.VehicleOff r2 = [] /\
  Host.live Host.Ticker r2 = Host.live Host.Ticker r.
Proof.
  intros Hf Hon Hoff r1 r2.
  assert (Hf1 : fresh r1) by (subst r1; destruct on; [now apply fresh_unsubscribe | exact Hf]).
  assert (Hon1 : bound Host.VehicleOn fOn None r1).
  { subst r1. destruct on as [tok | ]; [ | exact Hon].
    now apply (bound_unsubscribe_same _ fOn tok). }
  assert (Hoff1 : bound Host.VehicleOff fOff off r1).
  { subst r1. destruct on as [tok | ]; [ | exact Hoff].
    apply (bound_unsubscribe_other Host.VehicleOn fOn tok); auto. discriminate. }
  assert (Ht1 : Host.live Host.Ticker r1 = Host.live Host.Ticker r).
  { subst r1. destruct on as [tok | ]; [ | reflexivity].
    apply (live_unsubscribe_other Host.VehicleOn _ fOn); auto. discriminate. }
  subst r2. destruct off as [tok | ].
  - repeat split.
    + apply (bound_unsubscribe_other Host.VehicleOff fOff tok Host.VehicleOn fOn None);
        auto. discriminate.
    + now apply (bound_unsubscribe_same _ fOff tok).
    + rewrite <- Ht1.
      apply (live_unsubscribe_other Host.VehicleOff _ fOff); auto. discriminate.
  - repeat split; assumption.
Qed.

(** X7.  [autoSend(0)] switches the auto trigger off from any state whose
    handles describe the registry: both handles are [null] and nothing is
    subscribed to the vehicle topics afterwards, while a running route is
    left alone (ticker handle, ticker subscription, current telemetry and
    memoized configuration are unchanged).  A second [autoSend(0)] changes
    no variable and no subscription. *)
Theorem X7_autoSend_off_keeps_the_route (w : Abrp.State) :
  consistent w ->
  let w1 := Host.exec (Abrp.autoSend false) w in
  let w2 := Host.exec (Abrp.autoSend false) w1 in
  Abrp.vehicleOnSubscription (Host.vars w1) = None /\
  Abrp.vehicleOffSubscription (Host.vars w1) = None /\
  Host.live Host.VehicleOn (Host.bus w1) = [] /\
  Host.live Host.VehicleOff (Host.bus w1) = [] /\
  Abrp.tickerSubscription (Host.vars w1) = Abrp.tickerSubscription (Host.vars w) /\
  Host.live Host.Ticker (Host.bus w1) = Host.live Host.Ticker (Host.bus w) /\
  Abrp.currentTelemetry (Host.vars w1) = Abrp.currentTelemetry (Host.vars w) /\
  Abrp.configuration (Host.vars w1) = Abrp.configuration (Host.vars w) /\
  Host.vars w2 = Host.vars w1 /\
  Host.bus w2 = Host.bus w1.
Proof.
  intros [Hf [Hon [Hoff _]]] w1 w2. subst w2 w1. unfold Host.exec.
  destruct (autoSend_run false w) as [o1 ->]. cbn [snd].
  match goal with
  | |- context [Abrp.autoSend false ?x] => destruct (autoSend_run false x) as [o2 ->]
  end.
  cbn [snd].
  destruct (unsubscribe_both _ _ _ _ _ Hf Hon Hoff) as [H1 [H2 H3]].
  destruct w as [[[on | ] [off | ] tick cur cfg] b o]; cbn in *; auto 12.
Qed.

Lemma X7_witness :
  let w := Host.exec (Abrp.startRoute (Samples.env_of Samples.driving))
             (Host.exec (Abrp.autoSend true) Abrp.loaded) in
  let w1 := Host.exec (Abrp.autoSend false) w in
  let w2 := Host.exec (Abrp.autoSend false) w1 in
  Abrp.vehicleOnSubscription (Host.vars w1) = None /\
  Abrp.vehicleOffSubscription (Host.vars w1) = None /\
  Host.live Host.VehicleOn (Host.bus w1) = [] /\
  Host.live Host.VehicleOff (Host.bus w1) = [] /\
  Abrp.tickerSubscription (Host.vars w1) = Abrp.tickerSubscription (Host.vars w) /\
  Host.live Host.Ticker (Host.bus w1) = Host.live Host.Ticker (Host.bus w) /\
  Abrp.currentTelemetry (Host.vars w1) = Abrp.currentTelemetry (Host.vars w) /\
  Abrp.configuration (Host.vars w1) = Abrp.configuration (Host.vars w) /\
  Host.vars w2 = Host.vars w1 /\
  Host.bus w2 = Host.bus w1.
Proof.
  apply (X7_autoSend_off_keeps_the_route
           (Host.exec (Abrp.startRoute (Samples.env_of Samples.driving))
              (Host.exec (Abrp.autoSend true) Abrp.loaded))).
  apply startRoute_consistent, autoSend_consistent, loaded_consistent.
Defined.

(* ===================================================================== *)
(** ** abrp2.js and slack.js: the auto trigger on and off *)
(* ===================================================================== *)

Lemma Slack_disable_run (w : Slack.State) :
  let r1 := match Slack.vehicleOnSubscription (Host.vars w) with
            | Some tok => Host.unsubscribe tok (Host.bus w)
            | None => Host.bus w
            end in
  let r2 := match Slack.vehicleOffSubscription (Host.vars w) with
            | Some tok => Host.unsubscribe tok r1
            | None => r1
            end in
  SlackRest.disableSendBetweenVehicleOnAndOff w
  = (Host.Normal tt,
     Host.mkWorld (Slack.mkVars None None (Slack.tickerSubscription (Host.vars w))) r2
       (Host.out w ++ [Host.Print ("Vehicle on and off topics unsubscribed" ++ Host.nl)])).
Proof.
  destruct w as [[[on | ] [off | ] tick] b o]; reflexivity.
Qed.

Lemma Abrp2_disable_run (w : Abrp2.State) :
  let r1 := match Abrp2.vehicleOnSubscription (Host.vars w) with
            | Some tok => Host.unsubscribe tok (Host.bus w)
            | None => Host.bus w
            end in
  let r2 := match Abrp2.vehicleOffSubscription (Host.vars w) with
            | Some tok => Host.unsubscribe tok r1
            | None => r1
            end in
  Abrp2Rest.disableSendBetweenVehicleOnAndOff w
  = (Host.Normal tt,
     Host.mkWorld
       (Abrp2.mkVars None None (Abrp2.tickerSubscription (Host.vars w))
                     (Abrp2.currentTelemetry (Host.vars w)) (Abrp2.config (Host.vars w)))
       r2
       (Host.out w
          ++ [Host.Print ("ABRP::Vehicle on and off topics unsubscribed" ++ Host.nl)])).
Proof.
  destruct w as [[[on | ] [off | ] tick cur cfg] b o]; reflexivity.
Qed.

Lemma Abrp2_enable_run (w : Abrp2.State) :
  exists o',
    Abrp2Rest.enableSendBetweenVehicleOnAndOff w
    = (Host.Normal tt,
       let w1 :=
         match Abrp2.vehicleOnSubscription (Host.vars w) with
         | None =>
             Host.mkWorld
               (Abrp2Rest.set_vehicleOnSubscription (Some (Host.nextUid (Host.bus w)))
                                                    (Host.vars w))
               (snd (Host.subscribe Host.VehicleOn Abrp2.startRoute_cb (Host.bus w)))
               (Host.out w)
         | Some _ => w
         end in
       match Abrp2.vehicleOffSubscription (Host.vars w1) with
       | None =>
           Host.mkWorld
             (Abrp2Rest.set_vehicleOffSubscription (Some (Host.nextUid (Host.bus w1)))
                                                   (Host.vars w1))
             (snd (Host.subscribe Host.VehicleOff Abrp2.endRoute_cb (Host.bus w1)))
             o'
       | Some _ => Host.mkWorld (Host.vars w1) (Host.bus w1) o'
       end).
Proof.
  destruct w as [[[on | ] [off | ] tick cur cfg] b o]; cbn; eexists; reflexivity.
Qed.

Lemma Slack_disable_effect (s : Slack.State) :
  triggerDescribed Slack.vehicleOn Slack.vehicleOff
    (Slack.vehicleOnSubscription (Host.vars s))
    (Slack.vehicleOffSubscription (Host.vars s)) (Host.bus s) ->
  let s1 := Host.exec SlackRest.disableSendBetweenVehicleOnAndOff s in
  Slack.vehicleOnSubscription (Host.vars s1) = None /\
  Slack.vehicleOffSubscription (Host.vars s1) = None /\
  Host.live Host.VehicleOn (Host.bus s1) = [] /\
  Host.live Host.VehicleOff (Host.bus s1) = [] /\
  Slack.tickerSubscription (Host.vars s1) = Slack.tickerSubscription (Host.vars s) /\
  Host.live Host.Ticker (Host.bus s1) = Host.live Host.Ticker (Host.bus s).
Proof.
  intros [Hf [Hon Hoff]] s1. subst s1. unfold Host.exec.
  rewrite Slack_disable_run. cbn [snd Host.vars Host.bus].
  destruct (unsubscribe_both _ _ _ _ _ Hf Hon Hoff) as [H1 [H2 H3]].
  cbn. auto 8.
Qed.

Lemma Abrp2_disable_effect (a : Abrp2.State) :
  triggerDescribed Abrp2.startRoute_cb Abrp2.endRoute_cb
    (Abrp2.vehicleOnSubscription (Host.vars a))
    (Abrp2.vehicleOffSubscription (Host.vars a)) (Host.bus a) ->
  let a1 := Host.exec Abrp2Rest.disableSendBetweenVehicleOnAndOff a in
  Abrp2.vehicleOnSubscription (Host.vars a1) = None /\
  Abrp2.vehicleOffSubscription (Host.vars a1) = None /\
  Host.live Host.VehicleOn (Host.bus a1) = [] /\
  Host.live Host.VehicleOff (Host.bus a1) = [] /\
  Abrp2.tickerSubscription (Host.vars a1) = Abrp2.tickerSubscription (Host.vars a) /\
  Host.live Host.Ticker (Host.bus a1) = Host.live Host.Ticker (Host.bus a) /\
  Abrp2.currentTelemetry (Host.vars a1) = Abrp2.currentTelemetry (Host.vars a) /\
  Abrp2.config (Host.vars a1) = Abrp2.config (Host.vars a).
Proof.
  intros [Hf [Hon Hoff]] a1. subst a1. unfold Host.exec.
  rewrite Abrp2_disable_run. cbn [snd Host.vars Host.bus].
  destruct (unsubscribe_both _ _ _ _ _ Hf Hon Hoff) as [H1 [H2 H3]].
  cbn. auto 10.
Qed.

(** X8.  [disableSendBetweenVehicleOnAndOff], in [slack.js] and in
    [abrp2.js], from any state whose two handles describe the registry:
    both handles are [null] and nothing is subscribed to the vehicle
    topics afterwards, and the ticker handle and the ticker subscriptions
    are as before (as are, in [abrp2.js], the current telemetry and the
    configuration). *)
Theorem X8_disable_unsubscribes_only_the_vehicle_topics
  (s : Slack.State) (a : Abrp2.State) :
  triggerDescribed Slack.vehicleOn Slack.vehicleOff
    (Slack.vehicleOnSubscription (Host.vars s))
    (Slack.vehicleOffSubscription (Host.vars s)) (Host.bus s) ->
  triggerDescribed Abrp2.startRoute_cb Abrp2.endRoute_cb
    (Abrp2.vehicleOnSubscription (Host.vars a))
    (Abrp2.vehicleOffSubscription (Host.vars a)) (Host.bus a) ->
  let s1 := Host.exec SlackRest.disableSendBetweenVehicleOnAndOff s in
  let a1 := Host.exec Abrp2Rest.disableSendBetweenVehicleOnAndOff a in
  (Slack.vehicleOnSubscription (Host.vars s1) = None /\
   Slack.vehicleOffSubscription (Host.vars s1) = None /\
   Host.live Host.VehicleOn (Host.bus s1) = [] /\
   Host.live Host.VehicleOff (Host.bus s1) = [] /\
   Slack.tickerSubscription (Host.vars s1) = Slack.tickerSubscription (Host.vars s) /\
   Host.live Host.Ticker (Host.bus s1) = Host.live Host.Ticker (Host.bus s)) /\
  (Abrp2.vehicleOnSubscription (Host.vars a1) = None /\
   Abrp2.vehicleOffSubscription (Host.vars a1) = None /\
   Host.live Host.VehicleOn (Host.bus a1) = [] /\
   Host.live Host.VehicleOff (Host.bus a1) = [] /\
   Abrp2.tickerSubscription (Host.vars a1) = Abrp2.tickerSubscription (Host.vars a) /\
   Host.live Host.Ticker (Host.bus a1) = Host.live Host.Ticker (Host.bus a) /\
   Abrp2.currentTelemetry (Host.vars a1) = Abrp2.currentTelemetry (Host.vars a) /\
   Abrp2.config (Host.vars a1) = Abrp2.config (Host.vars a)).
Proof.
  intros Hs Ha. split; [now apply Slack_disable_effect | now apply Abrp2_disable_effect].
Qed.

(** After loading, nothing is subscribed and the handles are [null]. *)
Lemma loaded_triggers_described :
  triggerDescribed Slack.vehicleOn Slack.vehicleOff None None (Host.bus Slack.loaded) /\
  triggerDescribed Abrp2.startRoute_cb Abrp2.endRoute_cb None None (Host.bus Abrp2.loaded).
Proof.
  unfold triggerDescribed, fresh, bound. cbn. repeat split; constructor.
Qed.

(** Enabling the trigger keeps the handles describing the registry, in
    both scripts. *)
Lemma Slack_enable_described (s : Slack.State) :
  triggerDescribed Slack.vehicleOn Slack.vehicleOff
    (Slack.vehicleOnSubscription (Host.vars s))
    (Slack.vehicleOffSubscription (Host.vars s)) (Host.bus s) ->
  let s1 := Host.exec Slack.enableSendBetweenVehicleOnAndOff s in
  triggerDescribed Slack.vehicleOn Slack.vehicleOff
    (Slack.vehicleOnSubscription (Host.vars s1))
    (Slack.vehicleOffSubscription (Host.vars s1)) (Host.bus s1).
Proof.
  intros [Hf [Hon Hoff]] s1. subst s1. unfold Host.exec.
  destruct (Slack_enable_run s) as [o' ->]. cbn [snd].
  destruct s as [[[on | ] [off | ] tick] b o]; unfold triggerDescribed; cbn in *; registry.
Qed.

Lemma Abrp2_enable_described (a : Abrp2.State) :
  triggerDescribed Abrp2.startRoute_cb Abrp2.endRoute_cb
    (Abrp2.vehicleOnSubscription (Host.vars a))
    (Abrp2.vehicleOffSubscription (Host.vars a)) (Host.bus a) ->
  let a1 := Host.exec Abrp2Rest.enableSendBetweenVehicleOnAndOff a in
  triggerDescribed Abrp2.startRoute_cb Abrp2.endRoute_cb
    (Abrp2.vehicleOnSubscription (Host.vars a1))
    (Abrp2.vehicleOffSubscription (Host.vars a1)) (Host.bus a1) /\
  Abrp2.vehicleOnSubscription (Host.vars a1) <> None /\
  Abrp2.vehicleOffSubscription (Host.vars a1) <> None /\
  Abrp2.tickerSubscription (Host.vars a1) = Abrp2.tickerSubscription (Host.vars a) /\
  Host.live Host.Ticker (Host.bus a1) = Host.live Host.Ticker (Host.bus a).
Proof.
  intros [Hf [Hon Hoff]] a1. subst a1. unfold Host.exec.
  destruct (Abrp2_enable_run a) as [o' ->]. cbn [snd].
  destruct a as [[[on | ] [off | ] tick cur cfg] b o]; unfold triggerDescribed; cbn in *;
    (split; [registry | repeat split; try discriminate; now live_after_subscribe]).
Qed.

(** X9.  The auto trigger of [abrp2.js]: from a state whose two handles
    describe the registry, enabling leaves exactly one vehicle-on and one
    vehicle-off subscription, enabling again changes no variable and no
    subscription, and disabling after that leaves nothing subscribed to
    the vehicle topics and both handles [null]; the ticker handle and the
    ticker subscriptions are the same throughout. *)
Theorem X9_abrp2_trigger_on_twice_then_off (a : Abrp2.State) :
  triggerDescribed Abrp2.startRoute_cb Abrp2.endRoute_cb
    (Abrp2.vehicleOnSubscription (Host.vars a))
    (Abrp2.vehicleOffSubscription (Host.vars a)) (Host.bus a) ->
  let a1 := Host.exec Abrp2Rest.enableSendBetweenVehicleOnAndOff a in
  let a2 := Host.exec Abrp2Rest.enableSendBetweenVehicleOnAndOff a1 in
  let a3 := Host.exec Abrp2Rest.disableSendBetweenVehicleOnAndOff a2 in
  length (Host.live Host.VehicleOn (Host.bus a1)) = 1%nat /\
  length (Host.live Host.VehicleOff (Host.bus a1)) = 1%nat /\
  Host.vars a2 = Host.vars a1 /\
  Host.bus a2 = Host.bus a1 /\
  Abrp2.vehicleOnSubscription (Host.vars a3) = None /\
  Abrp2.vehicleOffSubscription (Host.vars a3) = None /\
  Host.live Host.VehicleOn (Host.bus a3) = [] /\
  Host.live Host.VehicleOff (Host.bus a3) = [] /\
  Abrp2.tickerSubscription (Host.vars a3) = Abrp2.tickerSubscription (Host.vars a) /\
  Host.live Host.Ticker (Host.bus a3) = Host.live Host.Ticker (Host.bus a).
Proof.
  intros Ha a1 a2 a3.
  destruct (Abrp2_enable_described a Ha) as [Hd [Hon [Hoff [Ht Hl]]]].
  fold a1 in Hd, Hon, Hoff, Ht, Hl.
  assert (H2 : Host.vars a2 = Host.vars a1 /\ Host.bus a2 = Host.bus a1).
  { subst a2. unfold Host.exec. destruct (Abrp2_enable_run a1) as [o' ->]. cbn [snd].
    destruct a1 as [[[on | ] [off | ] tick cur cfg] b o]; cbn in *;
      try (now elim Hon); try (now elim Hoff); auto. }
  destruct H2 as [Hv Hb].
  assert (Hd2 : triggerDescribed Abrp2.startRoute_cb Abrp2.endRoute_cb
                  (Abrp2.vehicleOnSubscription (Host.vars a2))
                  (Abrp2.vehicleOffSubscription (Host.vars a2)) (Host.bus a2))
    by (rewrite Hv, Hb; exact Hd).
  destruct (Abrp2_disable_effect a2 Hd2) as [D1 [D2 [D3 [D4 [D5 [D6 _]]]]]].
  fold a3 in D1, D2, D3, D4, D5, D6.
  destruct Hd as [_ [Bon Boff]]. unfold bound in Bon, Boff.
  repeat split; try assumption.
  - rewrite Bon. destruct (Abrp2.vehicleOnSubscription (Host.vars a1));
      [reflexivity | now elim Hon].
  - rewrite Boff. destruct (Abrp2.vehicleOffSubscription (Host.vars a1));
      [reflexivity | now elim Hoff].
  - now rewrite D5, Hv.
  - now rewrite D6, Hb.
Qed.

Lemma X9_witness :
  let a := Abrp2.loaded in
  let a1 := Host.exec Abrp2Rest.enableSendBetweenVehicleOnAndOff a in
  let a2 := Host.exec Abrp2Rest.enableSendBetweenVehicleOnAndOff a1 in
  let a3 := Host.exec Abrp2Rest.disableSendBetweenVehicleOnAndOff a2 in
  length (Host.live Host.VehicleOn (Host.bus a1)) = 1%nat /\
  length (Host.live Host.VehicleOff (Host.bus a1)) = 1%nat /\
  Host.vars a2 = Host.vars a1 /\
  Host.bus a2 = Host.bus a1 /\
  Abrp2.vehicleOnSubscription (Host.vars a3) = None /\
  Abrp2.vehicleOffSubscription (Host.vars a3) = None /\
  Host.live Host.VehicleOn (Host.bus a3) = [] /\
  Host.live Host.VehicleOff (Host.bus a3) = [] /\
  Abrp2.tickerSubscription (Host.vars a3) = Abrp2.tickerSubscription (Host.vars a) /\
  Host.live Host.Ticker (Host.bus a3) = Host.live Host.Ticker (Host.bus a).
Proof.
  apply (X9_abrp2_trigger_on_twice_then_off Abrp2.loaded).
  apply loaded_triggers_described.
Defined.

Lemma X8_witness :
  let s := Host.exec Slack.enableSendBetweenVehicleOnAndOff Slack.loaded in
  let a := Host.exec Abrp2.startRoute
             (Host.exec Abrp2Rest.enableSendBetweenVehicleOnAndOff Abrp2.loaded) in
  let s1 := Host.exec SlackRest.disableSendBetweenVehicleOnAndOff s in
  let a1 := Host.exec Abrp2Rest.disableSendBetweenVehicleOnAndOff a in
  (Slack.vehicleOnSubscription (Host.vars s1) = None /\
   Slack.vehicleOffSubscription (Host.vars s1) = None /\
   Host.live Host.VehicleOn (Host.bus s1) = [] /\
   Host.live Host.VehicleOff (Host.bus s1) = [] /\
   Slack.tickerSubscription (Host.vars s1) = Slack.tickerSubscription (Host.vars s) /\
   Host.live Host.Ticker (Host.bus s1) = Host.live Host.Ticker (Host.bus s)) /\
  (Abrp2.vehicleOnSubscription (Host.vars a1) = None /\
   Abrp2.vehicleOffSubscription (Host.vars a1) = None /\
   Host.live Host.VehicleOn (Host.bus a1) = [] /\
   Host.live Host.VehicleOff (Host.bus a1) = [] /\
   Abrp2.tickerSubscription (Host.vars a1) = Abrp2.tickerSubscription (Host.vars a) /\
   Host.live Host.Ticker (Host.bus a1) = Host.live Host.Ticker (Host.bus a) /\
   Abrp2.currentTelemetry (Host.vars a1) = Abrp2.currentTelemetry (Host.vars a) /\
   Abrp2.config (Host.vars a1) = Abrp2.config (Host.vars a)).
Proof.
  apply (X8_disable_unsubscribes_only_the_vehicle_topics
           (Host.exec Slack.enableSendBetweenVehicleOnAndOff Slack.loaded)
           (Host.exec Abrp2.startRoute
              (Host.exec Abrp2Rest.enableSendBetweenVehicleOnAndOff Abrp2.loaded))).
  - apply Slack_enable_described, loaded_triggers_described.
  - unfold triggerDescribed, fresh, bound. vm_compute.
    repeat split; repeat constructor; try lia; intros H; cbn in H; intuition discriminate.
Defined.

(* ===================================================================== *)
(** ** sendlivedata2abrp.js: histories, exceptions, info, published topics *)
(* ===================================================================== *)

(** X10.  Whatever console commands, published topics and request
    completions have happened since the script was loaded, and whatever
    the host answered, the three handles describe the registry: the tokens
    are distinct, every topic has at most one live subscription, and it is
    the one the handle of the topic holds. *)
Theorem X10_handles_describe_the_registry (history : list (Abrp.Env * Abrp.Action)) :
  let w := Abrp.run history Abrp.loaded in
  consistent w /\
  forall t, (length (Host.live t (Host.bus w)) <= 1)%nat.
Proof.
  intros w.
  assert (Hc : consistent w) by apply run_consistent, loaded_consistent.
  split; [exact Hc | ].
  destruct Hc as [_ [Hon [Hoff Htick]]]. unfold bound in *.
  intros [ | | ]; [rewrite Hon | rewrite Hoff | rewrite Htick];
    match goal with |- context [match ?h with _ => _ end] => destruct h end; cbn; lia.
Qed.

Lemma callEach_normal (env : Abrp.Env) (fs : list Abrp.Callback) (w : Abrp.State) :
  Abrp.callEach env fs w = (Host.Normal tt, Host.exec (Abrp.callEach env fs) w).
Proof.
  revert w. induction fs as [| f fs IH]; intros w; [reflexivity | ].
  unfold Host.exec. cbn [Abrp.callEach]. unfold Host.bind.
  rewrite call_normal. rewrite IH. reflexivity.
Qed.

Lemma info_run (env : Abrp.Env) (w : Abrp.State) :
  let c := assignedConfig (Abrp.config_values env) in
  Abrp.info env w
  = (match Abrp.metrics env with
     | inr r => Host.Normal tt
     | inl e => Host.Throw e
     end,
     Host.mkWorld (Abrp.set_configuration (Some c) (Host.vars w)) (Host.bus w)
       (Host.out w
          ++ Host.PrintConfig c
             :: match Abrp.metrics env with
                | inr r => [Host.PrintTelemetry (Abrp.telemetryOf env c r)]
                | inl e => []
                end)).
Proof.
  destruct env as [cv [e | r] clk re], w as [[on off tick cur cfg] b o];
    unfold Abrp.info; run_script; rewrite <- ?app_assoc; reflexivity.
Qed.

(** X11.  [info] has no [try]: it throws to its caller exactly when the
    metrics cannot be read, with the error of the reading.  On the same
    host [onetime], [send(1)] and [send(0)] return normally, the last two
    also when the registry calls throw. *)
Theorem X11_info_throws_where_send_and_onetime_report
  (subscribe : Host.Topic -> Abrp.Callback -> Host.M Abrp.State nat)
  (unsubscribe : nat -> Host.M Abrp.State unit)
  (env : Abrp.Env) (w : Abrp.State) :
  fst (Abrp.info env w)
  = match Abrp.metrics env with
    | inr _ => Host.Normal tt
    | inl e => Host.Throw e
    end /\
  Host.returns (Abrp.onetime env) w = true /\
  (forall start, Host.returns (AbrpOn.send subscribe unsubscribe env start) w = true) /\
  Abrp.send = AbrpOn.send Host.PubSub_subscribe Host.PubSub_unsubscribe.
Proof.
  split; [now rewrite info_run | ].
  split.
  - unfold Host.returns, Abrp.onetime.
    now destruct (sendTelemetry_frame env true w) as [-> _].
  - split; [ | reflexivity].
    intros [ | ]; cbn [AbrpOn.send].
    + apply (guarded_returns (AbrpOn.startRoute_body subscribe env) _ "Start route").
      apply try_handleError_guarded.
    + apply (guarded_returns (AbrpOn.endRoute_body unsubscribe) _ "End route").
      apply try_handleError_guarded.
Qed.

(** X12.  [info] never sends and never touches the session: it adds no
    request and leaves the current telemetry, the handles and the registry
    as they are.  It does replace the memoized configuration by the one
    read anew from the store, also when the reading of the metrics then
    throws; when the metrics can be read it prints the sample read under
    that configuration. *)
Theorem X12_info_reloads_configuration_and_sends_nothing
  (env : Abrp.Env) (w : Abrp.State) :
  let c := assignedConfig (Abrp.config_values env) in
  let w' := Host.exec (Abrp.info env) w in
  requests (Host.out w') = requests (Host.out w) /\
  Host.vars w' = Abrp.set_configuration (Some c) (Host.vars w) /\
  Host.bus w' = Host.bus w /\
  Host.out w'
  = (Host.out w
       ++ Host.PrintConfig c
          :: match Abrp.metrics env with
             | inr r => [Host.PrintTelemetry (Abrp.telemetryOf env c r)]
             | inl e => []
             end)%list.
Proof.
  intros c w'. subst w'. unfold Host.exec. rewrite info_run. cbn.
  repeat split. rewrite requests_app. cbn.
  destruct (Abrp.metrics env); cbn; now rewrite app_nil_r.
Qed.

(** Publishing in a state whose handles describe the registry. *)
Lemma publish_runs_subscriber (env : Abrp.Env) (w : Abrp.State) :
  consistent w ->
  Host.exec (Abrp.PubSub_publish env Host.Ticker) w
  = match Abrp.tickerSubscription (Host.vars w) with
    | Some _ => Host.exec (Abrp.sendTelemetry env false) w
    | None => w
    end /\
  Host.exec (Abrp.PubSub_publish env Host.VehicleOn) w
  = match Abrp.vehicleOnSubscription (Host.vars w) with
    | Some _ => Host.exec (Abrp.call env Abrp.onVehicleOn) w
    | None => w
    end /\
  Host.exec (Abrp.PubSub_publish env Host.VehicleOff) w
  = match Abrp.vehicleOffSubscription (Host.vars w) with
    | Some _ => Host.exec (Abrp.call env Abrp.onVehicleOff) w
    | None => w
    end.
Proof.
  intros [_ [Hon [Hoff Htick]]]. unfold bound in *.
  unfold Host.exec at 1 3 5. unfold Abrp.PubSub_publish.
  rewrite Hon, Hoff, Htick.
  repeat split;
    match goal with |- context [match ?h with _ => _ end] => destruct h end;
    try reflexivity; cbn [map Abrp.callEach Host.sub_callback]; unfold Host.bind;
    rewrite call_normal; reflexivity.
Qed.

(** A cycle adds at most one request, on every host. *)
Lemma sendTelemetry_requests_bound (env : Abrp.Env) (force : bool) (w : Abrp.State) :
  exists sent,
    requests (Host.out (Host.exec (Abrp.sendTelemetry env force) w))
    = (requests (Host.out w) ++ sent)%list /\
    (length sent <= 1)%nat.
Proof.
  destruct env as [cv [e | r] clk re];
  destruct w as [[on off tick cur cfg] b o];
  destruct cfg as [cfg | ], cur as [prev | ], force, re as [e' | ];
    run_script;
    repeat match goal with
      | |- context [telemetryInvalid ?x] => destruct (telemetryInvalid x); cbn
      | |- context [if telemetryChanged ?x ?y then _ else _] =>
          destruct (telemetryChanged x y); cbn
      end;
    rewrite ?requests_app; cbn; rewrite ?app_nil_r;
    first [ now (exists []; rewrite app_nil_r; split; [reflexivity | cbn; lia])
          | now (eexists [_]; split; [reflexivity | cbn; lia]) ].
Qed.

(** X13.  After any history since the script was loaded, whatever the host
    answered, a published tick runs one unforced cycle when the ticker
    handle is set and changes nothing when it is [null]; so a tick never
    makes more than one request. *)
Theorem X13_a_tick_makes_at_most_one_request
  (history : list (Abrp.Env * Abrp.Action)) (env : Abrp.Env) :
  let w := Abrp.run history Abrp.loaded in
  let w' := Host.exec (Abrp.PubSub_publish env Host.Ticker) w in
  w' = match Abrp.tickerSubscription (Host.vars w) with
       | Some _ => Host.exec (Abrp.sendTelemetry env false) w
       | None => w
       end /\
  exists sent,
    requests (Host.out w') = (requests (Host.out w) ++ sent)%list /\
    (length sent <= 1)%nat.
Proof.
  intros w w'.
  assert (Hc : consistent w) by apply run_consistent, loaded_consistent.
  destruct (publish_runs_subscriber env w Hc) as [P _]. fold w' in P.
  split; [exact P | ]. rewrite P.
  destruct (Abrp.tickerSubscription (Host.vars w)).
  - apply sendTelemetry_requests_bound.
  - exists []. rewrite app_nil_r. split; [reflexivity | cbn; lia].
Qed.

(** [startRoute] leaves the handles of the auto trigger as they are. *)
Lemma startRoute_keeps_trigger (env : Abrp.Env) (w : Abrp.State) :
  let w' := Host.exec (Abrp.startRoute env) w in
  Abrp.vehicleOnSubscription (Host.vars w') = Abrp.vehicleOnSubscription (Host.vars w) /\
  Abrp.vehicleOffSubscription (Host.vars w') = Abrp.vehicleOffSubscription (Host.vars w).
Proof.
  intros w'. subst w'. unfold Host.exec at 1 2. rewrite startRoute_run. cbn [snd].
  destruct (sendTelemetry_frame env true (Host.exec Abrp.unloadConfig w))
    as [_ [_ [Hon [Hoff _]]]].
  set (w1 := Host.exec (Abrp.sendTelemetry env true) (Host.exec Abrp.unloadConfig w)) in *.
  replace (Abrp.vehicleOnSubscription (Host.vars (Host.exec Abrp.unloadConfig w)))
    with (Abrp.vehicleOnSubscription (Host.vars w)) in Hon
    by (destruct w as [[on off tick cur cfg] b o]; reflexivity).
  replace (Abrp.vehicleOffSubscription (Host.vars (Host.exec Abrp.unloadConfig w)))
    with (Abrp.vehicleOffSubscription (Host.vars w)) in Hoff
    by (destruct w as [[on off tick cur cfg] b o]; reflexivity).
  rewrite <- Hon, <- Hoff.
  clearbody w1. destruct w1 as [[on off [tok | ] cur cfg] b o]; cbn; auto.
Qed.

(** X14.  A drive with the auto trigger on, in a state whose handles
    describe the registry: the vehicle-on topic starts a route (the ticker
    is subscribed, once), the vehicle-off topic ends it (no ticker
    subscription, [null] ticker handle and current telemetry), and a tick
    published after that changes nothing, so nothing is sent once the
    vehicle is off.  This holds whatever the host answers in the three
    handlers. *)
Theorem X14_vehicle_on_then_off_leaves_no_ticker
  (envOn envOff envTick : Abrp.Env) (w : Abrp.State) :
  consistent w ->
  Abrp.vehicleOnSubscription (Host.vars w) <> None ->
  Abrp.vehicleOffSubscription (Host.vars w) <> None ->
  let w1 := Host.exec (Abrp.PubSub_publish envOn Host.VehicleOn) w in
  let w2 := Host.exec (Abrp.PubSub_publish envOff Host.VehicleOff) w1 in
  let w3 := Host.exec (Abrp.PubSub_publish envTick Host.Ticker) w2 in
  Abrp.tickerSubscription (Host.vars w1) <> None /\
  length (Host.live Host.Ticker (Host.bus w1)) = 1%nat /\
  Abrp.tickerSubscription (Host.vars w2) = None /\
  Host.live Host.Ticker (Host.bus w2) = [] /\
  Abrp.currentTelemetry (Host.vars w2) = None /\
  w3 = w2.
Proof.
  intros Hc Hon Hoff w1 w2 w3.
  (* vehicle on *)
  destruct (publish_runs_subscriber envOn w Hc) as [_ [P1 _]].
  destruct (Abrp.vehicleOnSubscription (Host.vars w)) as [tokOn | ] eqn:EOn;
    [clear Hon | now elim Hon].
  fold w1 in P1.
  set (wr := Host.mkWorld (Host.vars w) (Host.bus w)
               (Host.out w ++ [Host.Raise Host.Info "usr.abrp.status"
                                 "Vehicle on - starting route"])).
  assert (E1 : w1 = Host.exec (Abrp.startRoute envOn) wr) by (rewrite P1; reflexivity).
  assert (Hc1 : consistent w1) by (rewrite P1; now apply call_consistent).
  assert (Ht1 : Abrp.tickerSubscription (Host.vars w1) <> None).
  { rewrite E1. assert (Hs := startRoute_effect envOn wr). cbn zeta in Hs.
    destruct (Abrp.tickerSubscription (Host.vars wr));
      destruct Hs as [_ ->]; discriminate. }
  assert (Hoff1 : Abrp.vehicleOffSubscription (Host.vars w1) <> None).
  { rewrite E1. destruct (startRoute_keeps_trigger envOn wr) as [_ ->]. exact Hoff. }
  (* vehicle off *)
  destruct (publish_runs_subscriber envOff w1 Hc1) as [_ [_ P2]].
  destruct (Abrp.vehicleOffSubscription (Host.vars w1)) as [tokOff | ] eqn:EOff;
    [clear Hoff1 | now elim Hoff1].
  fold w2 in P2.
  set (wr1 := Host.mkWorld (Host.vars w1) (Host.bus w1)
                (Host.out w1 ++ [Host.Raise Host.Info "usr.abrp.status"
                                   "Vehicle off - ending route"])).
  assert (E2 : w2 = Host.exec Abrp.endRoute wr1) by (rewrite P2; reflexivity).
  assert (Hc2 : consistent w2) by (rewrite P2; now apply call_consistent).
  destruct (endRoute_effect wr1) as [Hcur [_ [Htick _]]]. rewrite <- E2 in Hcur, Htick.
  (* tick *)
  destruct (publish_runs_subscriber envTick w2 Hc2) as [P3 _].
  fold w3 in P3. rewrite Htick in P3.
  destruct Hc1 as [_ [_ [_ Hb1]]]. destruct Hc2 as [_ [_ [_ Hb2]]].
  unfold bound in Hb1, Hb2. rewrite Htick in Hb2.
  repeat split; try assumption.
  rewrite Hb1. destruct (Abrp.tickerSubscription (Host.vars w1));
    [reflexivity | now elim Ht1].
Qed.

Lemma X14_witness :
  let envOn := Samples.env_of Samples.driving in
  let envOff := Samples.env_http_down Samples.driving_later in
  let envTick := Samples.env_of Samples.dropout in
  let w := Host.exec (Abrp.autoSend true) Abrp.loaded in
  let w1 := Host.exec (Abrp.PubSub_publish envOn Host.VehicleOn) w in
  let w2 := Host.exec (Abrp.PubSub_publish envOff Host.VehicleOff) w1 in
  let w3 := Host.exec (Abrp.PubSub_publish envTick Host.Ticker) w2 in
  Abrp.tickerSubscription (Host.vars w1) <> None /\
  length (Host.live Host.Ticker (Host.bus w1)) = 1%nat /\
  Abrp.tickerSubscription (Host.vars w2) = None /\
  Host.live Host.Ticker (Host.bus w2) = [] /\
  Abrp.currentTelemetry (Host.vars w2) = None /\
  w3 = w2.
Proof.
  apply (X14_vehicle_on_then_off_leaves_no_ticker
           (Samples.env_of Samples.driving)
           (Samples.env_http_down Samples.driving_later)
           (Samples.env_of Samples.dropout)
           (Host.exec (Abrp.autoSend true) Abrp.loaded)).
  - apply autoSend_consistent, loaded_consistent.
  - vm_compute. discriminate.
  - vm_compute. discriminate.
Defined.

(* ===================================================================== *)
(** ** The cycle as a whole, and the variant of abrp2.js *)
(* ===================================================================== *)

(** X15.  With readable metrics a cycle makes at most one request: exactly
    one, for the sample read, when there is no current telemetry, or the
    send is forced, or the sample is valid and changed against the current
    telemetry; none otherwise.  The sample becomes the current telemetry
    in the first case and the current telemetry is left alone in the
    second; the registry and the ticker handle are never touched. *)
Theorem X15_cycle_requests_once_iff_accepted
  (env : Abrp.Env) (force : bool) (w : Abrp.State) (r : Abrp.Reading) :
  Abrp.metrics env = inr r ->
  let c := configOf env w in
  let s := Abrp.telemetryOf env c r in
  let w' := Host.exec (Abrp.sendTelemetry env force) w in
  let accepted :=
    match Abrp.currentTelemetry (Host.vars w) with
    | None => true
    | Some previous => force || (negb (telemetryInvalid s) && telemetryChanged previous s)
    end in
  fst (Abrp.sendCondition force s w) = Host.Normal accepted /\
  requests (Host.out w')
  = (requests (Host.out w) ++ if accepted then [urlOf c s] else [])%list /\
  Abrp.currentTelemetry (Host.vars w')
  = (if accepted then Some s else Abrp.currentTelemetry (Host.vars w)) /\
  Host.bus w' = Host.bus w /\
  Abrp.tickerSubscription (Host.vars w') = Abrp.tickerSubscription (Host.vars w).
Proof.
  intros Hm c s w' accepted.
  destruct (sendTelemetry_run env force w r Hm) as [Hg [Hb Ht]].
  fold c s w' in Hg, Hb, Ht.
  change accepted with (shouldSend (Abrp.currentTelemetry (Host.vars w)) s force).
  split; [apply sendCondition_shouldSend | ].
  destruct (shouldSend (Abrp.currentTelemetry (Host.vars w)) s force);
    destruct Hg as [Hcur Hreq]; rewrite ?app_nil_r; auto.
Qed.

Lemma X15_witness :
  let env := Samples.env_of Samples.driving_later in
  let w := Samples.after (Some Samples.driving) in
  let w' := Host.exec (Abrp.sendTelemetry env false) w in
  fst (Abrp.sendCondition false Samples.driving_later w) = Host.Normal false /\
  requests (Host.out w') = requests (Host.out w) /\
  Abrp.currentTelemetry (Host.vars w') = Some Samples.driving.
Proof.
  destruct (X15_cycle_requests_once_iff_accepted
              (Samples.env_of Samples.driving_later) false
              (Samples.after (Some Samples.driving))
              (Samples.reading_of Samples.driving_later) eq_refl)
    as [H1 [H2 [H3 _]]].
  exact (conj H1 (conj H2 H3)).
Defined.

(** X16.  When [HTTP.Request] throws as it is called, the accepted sample
    has been committed and the call is on record; the cycle catches the
    error, raises one error notification under the context
    [Send telemetry], and returns normally. *)
Theorem X16_request_that_throws_is_reported
  (env : Abrp.Env) (force : bool) (w : Abrp.State) (r : Abrp.Reading) (e : Host.Exn) :
  Abrp.metrics env = inr r ->
  Abrp.request_error env = Some e ->
  let c := configOf env w in
  let s := Abrp.telemetryOf env c r in
  fst (Abrp.sendCondition force s w) = Host.Normal true ->
  let w' := Host.exec (Abrp.sendTelemetry env force) w in
  Host.returns (Abrp.sendTelemetry env force) w = true /\
  Abrp.currentTelemetry (Host.vars w') = Some s /\
  requests (Host.out w') = (requests (Host.out w) ++ [urlOf c s])%list /\
  errorsRaised (Host.out w')
  = (errorsRaised (Host.out w)
       ++ [("Send telemetry" ++ " error  - " ++ Host.message e)%string])%list.
Proof.
  intros Hm He c s Hgo w'.
  rewrite sendCondition_shouldSend in Hgo. injection Hgo as Hgo.
  destruct (sendTelemetry_run env force w r Hm) as [Hg _].
  fold c s w' in Hg. rewrite Hgo in Hg. destruct Hg as [Hcur Hreq].
  split; [ | split; [exact Hcur | split; [exact Hreq | ]]].
  - unfold Host.returns. now destruct (sendTelemetry_frame env force w) as [-> _].
  - subst w' s c. revert Hgo.
    destruct env as [cv m clk re]; cbn in Hm, He; subst m re.
    destruct w as [[on off tick cur cfg] b o].
    destruct cfg as [cfg | ], cur as [prev | ], force;
      cbn [shouldSend orb Host.vars Abrp.currentTelemetry]; intros Hgo;
      run_script;
      repeat match goal with
        | H : context [telemetryInvalid ?x] |- _ =>
            destruct (telemetryInvalid x); cbn in H |- *; try discriminate H
        | H : telemetryChanged ?x ?y = true |- _ => rewrite H; cbn
        end;
      rewrite ?errorsRaised_app; cbn; rewrite ?app_nil_r; reflexivity.
Qed.

Lemma X16_witness :
  let env := Samples.env_http_down Samples.driving in
  let w := Samples.after None in
  let w' := Host.exec (Abrp.sendTelemetry env false) w in
  Host.returns (Abrp.sendTelemetry env false) w = true /\
  Abrp.currentTelemetry (Host.vars w') = Some Samples.driving /\
  requests (Host.out w')
  = (requests (Host.out w) ++ [urlOf (configOf env w) Samples.driving])%list /\
  errorsRaised (Host.out w')
  = (errorsRaised (Host.out w)
       ++ [("Send telemetry" ++ " error  - " ++ "network unreachable")%string])%list.
Proof.
  apply (X16_request_that_throws_is_reported
           (Samples.env_http_down Samples.driving) false (Samples.after None)
           (Samples.reading_of Samples.driving) (Host.mkError "network unreachable"));
    reflexivity.
Defined.

(** Under every key, [!=] on two samples is [!==] on their fields. *)
Lemma keyChanged_strict_ne (previous next : Telemetry) (key : Indicator) :
  Abrp2Rest.keyChanged previous next key
  = JS.strict_ne (field previous key) (field next key).
Proof. destruct key; reflexivity. Qed.

(** The loop returns whether some remaining key changed, and prints the
    line of the first one that did. *)
Lemma scanKeys_run (toString : JS.value -> string) (previous next : Telemetry)
  (rest : list Indicator) (w : Abrp2.State) :
  Abrp2Rest.scanKeys toString previous next rest w
  = (Host.Normal (existsb (Abrp2Rest.keyChanged previous next) rest),
     Host.mkWorld (Host.vars w) (Host.bus w)
       (Host.out w
          ++ [Host.Print
                match find (Abrp2Rest.keyChanged previous next) rest with
                | Some key => Abrp2Rest.changedLine toString previous next key
                | None => "ABRP::Telemetry not changed"
                end])).
Proof.
  induction rest as [| key rest IH]; cbn [Abrp2Rest.scanKeys existsb find].
  - destruct w as [v b o]. reflexivity.
  - destruct (Abrp2Rest.keyChanged previous next key); [ | exact IH].
    destruct w as [v b o]. reflexivity.
Qed.

(** X17.  The change gate of [abrp2.js], a loop with [!=] that returns at
    the first changed key, decides as the gate of [sendlivedata2abrp.js]
    does with [some] and [!==]: it returns true exactly when the sample is
    valid and some watched field is [!==].  It changes no variable and no
    subscription and prints one line: the invalid-telemetry line, or the
    line of the first key of the list that changed, or that nothing
    changed. *)
Theorem X17_abrp2_gate_decides_like_the_some_gate
  (toString : JS.value -> string) (previous next : Telemetry)
  (w : Abrp2.State) (w0 : Abrp.State) :
  let result := Abrp2Rest.telemetryIsValidAndHasChanged toString previous next w in
  fst result = fst (Abrp.isTelemetryValidAndHasChanged previous next w0) /\
  fst result = Host.Normal (negb (telemetryInvalid next) && telemetryChanged previous next) /\
  Host.vars (snd result) = Host.vars w /\
  Host.bus (snd result) = Host.bus w /\
  Host.out (snd result)
  = (Host.out w
       ++ [Host.Print
             (if telemetryInvalid next then
                "ABRP::Telemetry invalid, canbus not readable: reset module and then put motors on"
                  ++ Host.nl
              else
                match firstChangedKey previous next with
                | Some key => Abrp2Rest.changedLine toString previous next key
                | None => "ABRP::Telemetry not changed"
                end)])%list.
Proof.
  intros result. subst result.
  assert (Hsome : existsb (Abrp2Rest.keyChanged previous next) Abrp2Rest.keys
                  = telemetryChanged previous next).
  { unfold telemetryChanged, Abrp2Rest.keys, telemetryChangedIndicators. cbn [existsb].
    now rewrite !keyChanged_strict_ne. }
  unfold Abrp2Rest.telemetryIsValidAndHasChanged, Abrp.isTelemetryValidAndHasChanged,
    firstChangedKey.
  destruct (telemetryInvalid next).
  - destruct w as [v b o], w0 as [v0 b0 o0]. cbn. auto.
  - rewrite scanKeys_run, Hsome. destruct w0 as [v0 b0 o0]. cbn. auto.
Qed.

(** X18.  In [abrp2.js], [startRoute] followed by [endRoute] is a round
    trip on the subscriptions of a registry whose tokens are below the
    next one: the subscriptions afterwards are those before the start,
    whatever they were, and ticker handle, current telemetry and
    configuration are [null]. *)
Theorem X18_abrp2_start_then_end_restores_subscriptions (w : Abrp2.State) :
  fresh (Host.bus w) ->
  let w' := Host.exec Abrp2.endRoute (Host.exec Abrp2.startRoute w) in
  Host.subscriptions (Host.bus w') = Host.subscriptions (Host.bus w) /\
  Abrp2.tickerSubscription (Host.vars w') = None /\
  Abrp2.currentTelemetry (Host.vars w') = None /\
  Abrp2.config (Host.vars w') = None.
Proof.
  intros [_ Hlt] w'. subst w'. destruct w as [[on off tick cur cfg] b o].
  cbn in Hlt.
  split; [ | repeat split].
  change (Host.subscriptions
            (Host.unsubscribe (Host.nextUid b)
               (snd (Host.subscribe Host.Ticker Abrp2.onTicker b)))
          = Host.subscriptions b).
  unfold Host.subscribe, Host.unsubscribe. cbn.
  rewrite filter_app. cbn. rewrite Nat.eqb_refl. cbn. rewrite app_nil_r.
  apply forallb_filter_id. apply forallb_forall. intros s Hs.
  rewrite Forall_forall in Hlt. specialize (Hlt s Hs).
  apply negb_true_iff, Nat.eqb_neq. lia.
Qed.

Lemma X18_witness :
  let w := Host.exec Abrp2.startRoute Abrp2.loaded in
  let w' := Host.exec Abrp2.endRoute (Host.exec Abrp2.startRoute w) in
  Host.subscriptions (Host.bus w') = Host.subscriptions (Host.bus w) /\
  Abrp2.tickerSubscription (Host.vars w') = None /\
  Abrp2.currentTelemetry (Host.vars w') = None /\
  Abrp2.config (Host.vars w') = None.
Proof.
  apply (X18_abrp2_start_then_end_restores_subscriptions
           (Host.exec Abrp2.startRoute Abrp2.loaded)).
  unfold fresh. cbn. split; [constructor; [intros [] | constructor] | repeat constructor].
Defined.

(** X19.  A sample whose state of charge or state of health is [NaN]
    passes the validity guard ([NaN + x] is not [0]) and is accepted by the
    gate against every current telemetry, forced or not, the same sample
    included ([NaN] is [!==] to itself): while such a reading lasts, every
    tick sends. *)
Theorem X19_NaN_charge_or_health_is_always_accepted
  (s : Telemetry) (force : bool) (w : Abrp.State) :
  soc s = JS.NaN \/ soh s = JS.NaN ->
  telemetryInvalid s = false /\
  fst (Abrp.sendCondition force s w) = Host.Normal true.
Proof.
  intros HN.
  assert (Hv : telemetryInvalid s = false).
  { unfold telemetryInvalid, JS.sum_is_zero.
    destruct HN as [-> | ->]; [destruct (soh s) | ]; reflexivity. }
  split; [exact Hv | ].
  rewrite sendCondition_shouldSend. unfold shouldSend.
  destruct (Abrp.currentTelemetry (Host.vars w)) as [prev | ]; [ | reflexivity].
  rewrite Hv. cbn [negb andb].
  replace (telemetryChanged prev s) with true; [now rewrite orb_true_r | ].
  symmetry. apply telemetryChanged_iff.
  destruct HN as [E | E].
  - exists k_soc. split; [cbn; tauto | right; cbn; now rewrite E].
  - exists k_soh. split; [cbn; tauto | right; cbn; now rewrite E].
Qed.

Lemma X19_witness :
  telemetryInvalid sampleWithoutCharge = false /\
  fst (Abrp.sendCondition false sampleWithoutCharge
         (Samples.after (Some sampleWithoutCharge))) = Host.Normal true.
Proof.
  apply (X19_NaN_charge_or_health_is_always_accepted
           sampleWithoutCharge false (Samples.after (Some sampleWithoutCharge))).
  left. reflexivity.
Defined.
